(** * criptx46: the chat message bubble and the gesture-blocking hook

    A shallow embedding of [MessageItem] (the React component that renders one
    chat message, its popup menus and its delete flow) and of the
    [useNativeBehavior] hook, with the properties the specification states
    about them.

    Conventions of the embedding:
    - JavaScript values that the code inspects dynamically (the [error: any]
      of a [catch], the argument of [alert]) are values of [Js.value];
    - JavaScript numbers are IEEE-754 doubles, here Rocq's primitive [float];
    - React state is the record [State]; a [useState] setter writes one field.
      A handler reads state through the closure of the render it belongs to;
      every handler below reads a field only before it writes it, so reading
      the current record is the same thing;
    - a handler is a computation in the monad [M]: it threads the state,
      appends to a log of observable effects, and completes normally, by a
      throw, or suspended at an [await] whose promise has not settled;
    - the caller-supplied [onDelete] is a function to the [Settlement] of the
      promise it returns. *)

From Stdlib Require Import Bool List String Floats Arith Lia.
Import ListNotations.

Open Scope string_scope.
Open Scope list_scope.
Open Scope nat_scope.

(* ------------------------------------------------------------------ *)
(** ** JavaScript values *)

Module Js.

#[warnings="-register-all"] Inductive value : Type :=
| Undefined
| Null
| Boolean (b : bool)
| Number (f : float)
| Str (s : string)
| Object (props : list (string * value)).

(** ToBoolean. *)
Definition truthy (v : value) : bool :=
  match v with
  | Undefined | Null => false
  | Boolean b => b
  | Number f => negb (PrimFloat.eqb f 0%float) && negb (PrimFloat.is_nan f)
  | Str s => negb (String.eqb s "")
  | Object _ => true
  end.

(** [a || b]. *)
Definition or (a b : value) : value := if truthy a then a else b.

Fixpoint lookup (k : string) (props : list (string * value)) : option value :=
  match props with
  | [] => None
  | (k', v) :: rest => if String.eqb k k' then Some v else lookup k rest
  end.

(** The [TypeError] the engine raises; the wording of its message is the
    engine's (this is V8's). *)
Definition typeError (m : string) : value :=
  Object [("name", Str "TypeError"); ("message", Str m)].

Definition isTypeError (v : value) : bool :=
  match v with
  | Object props =>
      match lookup "name" props with
      | Some (Str n) => String.eqb n "TypeError"
      | _ => false
      end
  | _ => false
  end.

(** [v.message]: reading a property of [undefined] or [null] throws; the
    wrappers of booleans, numbers and strings have no [message]; an object
    answers with the property when it has one (own or inherited: the list
    holds every property visible on the object, so [new Error()] carries
    [message = ""]) and with [undefined] otherwise. The result is [inl] of
    the value read or [inr] of the value thrown. *)
Definition getMessage (v : value) : value + value :=
  match v with
  | Undefined =>
      inr (typeError "Cannot read properties of undefined (reading 'message')")
  | Null =>
      inr (typeError "Cannot read properties of null (reading 'message')")
  | Boolean _ | Number _ | Str _ => inl Undefined
  | Object props =>
      match lookup "message" props with
      | Some m => inl m
      | None => inl Undefined
      end
  end.

(** Truthiness of a string and of an optional property. *)
Definition truthyStr (s : string) : bool := negb (String.eqb s "").

Definition truthyOptStr (o : option string) : bool :=
  match o with Some s => truthyStr s | None => false end.

Definition truthyOptBool (o : option bool) : bool :=
  match o with Some b => b | None => false end.

(** [a || b] on optional booleans ([None] is [undefined]). *)
Definition orOptBool (a b : option bool) : option bool :=
  if truthyOptBool a then a else b.

End Js.

(* ------------------------------------------------------------------ *)
(** ** The hook [useNativeBehavior] *)

Module NativeBehavior.

(** A touch point; only their number matters to the hook. *)
Record Touch := { identifier : nat }.

Record TouchEvent := { touches : list Touch }.

(** What a handler does to the event it receives. *)
Inductive EventCall := PreventDefault.

(** [handleGesture]: [if (e.touches.length > 1) e.preventDefault()]. *)
Definition handleGesture (e : TouchEvent) : list EventCall :=
  if 1 <? List.length (touches e) then [PreventDefault] else [].

(** An entry of the document's listener list. Entries are identified by
    type, callback and capture flag; [passive] is not part of the key. *)
Record Listener := {
  evType : string;
  callback : nat;           (* the identity of the function object *)
  run : TouchEvent -> list EventCall;
  capture : bool;
  passive : bool
}.

Definition sameListener (ty : string) (cb : nat) (cap : bool) (l : Listener) : bool :=
  String.eqb (evType l) ty && Nat.eqb (callback l) cb && Bool.eqb (capture l) cap.

Definition Document := list Listener.

(** [document.addEventListener(type, cb, { passive })]: appended unless a
    listener with the same type, callback and capture is already there. *)
Definition addEventListener (ty : string) (cb : nat)
           (f : TouchEvent -> list EventCall) (pas : bool) (doc : Document) : Document :=
  if existsb (sameListener ty cb false) doc then doc
  else doc ++ [{| evType := ty; callback := cb; run := f;
                  capture := false; passive := pas |}].

(** [document.removeEventListener(type, cb)]. *)
Definition removeEventListener (ty : string) (cb : nat) (doc : Document) : Document :=
  filter (fun l => negb (sameListener ty cb false l)) doc.

(** The effect of [useNativeBehavior]: what it does on mount, and the
    cleanup it returns. [fn] is the identity of the closure [handleGesture]
    created by this run of the effect. *)
Record Effect := { mounted : Document; cleanup : Document -> Document }.

Definition useNativeBehavior (fn : nat) (doc : Document) : Effect :=
  {| mounted := addEventListener "touchstart" fn handleGesture false doc;
     cleanup := removeEventListener "touchstart" fn |}.

Definition listening (ty : string) (cb : nat) (doc : Document) : bool :=
  existsb (sameListener ty cb false) doc.

(** Dispatching an event of type [ty]: every listener of that type runs. *)
Definition dispatch (ty : string) (e : TouchEvent) (doc : Document) : list EventCall :=
  flat_map (fun l => if String.eqb (evType l) ty then run l e else []) doc.

End NativeBehavior.

(* ------------------------------------------------------------------ *)
(** ** The component [MessageItem] *)

Module MessageItem.

(** *** Properties, state, environment *)

(** How a promise ends: fulfilled, rejected with a reason, or not settled. *)
Inductive Settlement : Type :=
| Resolves
| Rejects (reason : Js.value)
| Pending.

Inductive MediaType := photo | video | audio | document.

(** [MessageItemProps], without the fields that are only displayed
    ([timestamp], [senderId], [senderPhoto]). An optional property that is
    not passed is [None]. *)
Record Props := {
  id : string;
  text : string;
  isMe : bool;
  senderName : string;
  mediaUrl : option string;
  mediaType : option MediaType;
  fileName : option string;
  onDelete : option (string -> bool -> Settlement);
  isGroupChat : option bool;
  isAdmin : option bool;
  isGroupCreator : option bool;
  readBy : list string;
  deliveredTo : list string
}.

Inductive MenuPosition := bottom | top.

(** The [useState] cells of the component. *)
Record State := {
  showMenu : bool;
  isPlaying : bool;
  isDeleting : bool;
  showDeleteOptions : bool;
  isMediaLoading : bool;
  showFullImage : bool;
  menuPosition : MenuPosition
}.

(** The initial values passed to [useState]. *)
Definition initialState : State :=
  {| showMenu := false; isPlaying := false; isDeleting := false;
     showDeleteOptions := false; isMediaLoading := true;
     showFullImage := false; menuPosition := bottom |}.

(** A DOM node is known by its identity; an element by what it contains and
    by the bottom edge of its bounding rectangle. *)
Definition Node := nat.

Record Element := {
  contains : Node -> bool;
  rectBottom : float           (* getBoundingClientRect().bottom *)
}.

(** The page at the time of an event: the element behind [messageRef]
    ([None] while the ref is null), the element the popup menu is when it is
    mounted, and [window.innerHeight]. *)
Record Dom := {
  messageEl : option Element;
  menuEl : Element;
  innerHeight : float
}.

Record ShareData := {
  sd_text : string;
  sd_title : string;
  sd_url : option string
}.

(** [navigator]: [share] is absent on browsers without the Web Share API,
    [clipboard] outside secure contexts. *)
Record Navigator := {
  share : option (ShareData -> Settlement);
  clipboard : option (string -> Settlement)
}.

(** What a handler does that the outside can observe. *)
Inductive Effect : Type :=
| CallOnDelete (messageId : string) (deleteForEveryone : bool)
| ConsoleError (label : string) (err : Js.value)
| Alert (message : Js.value)
| ClipboardWriteText (t : string)
| NavigatorShare (d : ShareData)
| AudioPause
| AudioPlay
| StopPropagation.

(** *** The handler monad *)

Inductive Completion (A : Type) : Type :=
| Normal (a : A)
| Throw (e : Js.value)
| Suspended.
Arguments Normal {A} a.
Arguments Throw {A} e.
Arguments Suspended {A}.

Record Run (A : Type) : Type := mkRun {
  completion : Completion A;
  state : State;
  effects : list Effect
}.
Arguments mkRun {A} _ _ _.
Arguments completion {A} _.
Arguments state {A} _.
Arguments effects {A} _.

Definition M (A : Type) : Type := State -> Run A.

Definition ret {A} (a : A) : M A := fun s => mkRun (Normal a) s [].

Definition bind {A B} (m : M A) (k : A -> M B) : M B :=
  fun s =>
    let r := m s in
    match completion r with
    | Normal a =>
        let r' := k a (state r) in
        mkRun (completion r') (state r') (effects r ++ effects r')
    | Throw e => mkRun (Throw e) (state r) (effects r)
    | Suspended => mkRun Suspended (state r) (effects r)
    end.

Notation "x <- m ;; k" := (bind m (fun x => k))
  (at level 61, m at next level, right associativity).
Notation "m ;; k" := (bind m (fun _ => k))
  (at level 61, right associativity).

Definition throw {A} (e : Js.value) : M A := fun s => mkRun (Throw e) s [].

Definition perform (eff : Effect) : M unit := fun s => mkRun (Normal tt) s [eff].

Definition get : M State := fun s => mkRun (Normal s) s [].

Definition modify (f : State -> State) : M unit := fun s => mkRun (Normal tt) (f s) [].

(** [await p]: goes on when [p] is fulfilled, throws the reason when it is
    rejected, and stays suspended while it is pending. *)
Definition await (p : Settlement) : M unit :=
  fun s =>
    match p with
    | Resolves => mkRun (Normal tt) s []
    | Rejects e => mkRun (Throw e) s []
    | Pending => mkRun Suspended s []
    end.

(** [try { m } catch (error) { h error }]. *)
Definition tryCatch {A} (m : M A) (h : Js.value -> M A) : M A :=
  fun s =>
    let r := m s in
    match completion r with
    | Throw e =>
        let r' := h e (state r) in
        mkRun (completion r') (state r') (effects r ++ effects r')
    | _ => r
    end.

(** [try { m } finally { f }]: [f] runs when [m] has completed, normally or
    not, and the completion of [m] stands unless [f] itself throws. A
    suspended [m] has not reached it. *)
Definition tryFinally {A} (m : M A) (f : M unit) : M A :=
  fun s =>
    let r := m s in
    match completion r with
    | Suspended => r
    | c =>
        let r' := f (state r) in
        match completion r' with
        | Normal _ => mkRun c (state r') (effects r ++ effects r')
        | Throw e => mkRun (Throw e) (state r') (effects r ++ effects r')
        | Suspended => mkRun Suspended (state r') (effects r ++ effects r')
        end
    end.

(** *** The [useState] setters *)

(** A setter replaces one cell and leaves the others. *)
Definition withShowMenu (v : bool) (s : State) : State :=
  {| showMenu := v; isPlaying := isPlaying s; isDeleting := isDeleting s;
     showDeleteOptions := showDeleteOptions s; isMediaLoading := isMediaLoading s;
     showFullImage := showFullImage s; menuPosition := menuPosition s |}.

Definition withIsPlaying (v : bool) (s : State) : State :=
  {| showMenu := showMenu s; isPlaying := v; isDeleting := isDeleting s;
     showDeleteOptions := showDeleteOptions s; isMediaLoading := isMediaLoading s;
     showFullImage := showFullImage s; menuPosition := menuPosition s |}.

Definition withIsDeleting (v : bool) (s : State) : State :=
  {| showMenu := showMenu s; isPlaying := isPlaying s; isDeleting := v;
     showDeleteOptions := showDeleteOptions s; isMediaLoading := isMediaLoading s;
     showFullImage := showFullImage s; menuPosition := menuPosition s |}.

Definition withShowDeleteOptions (v : bool) (s : State) : State :=
  {| showMenu := showMenu s; isPlaying := isPlaying s; isDeleting := isDeleting s;
     showDeleteOptions := v; isMediaLoading := isMediaLoading s;
     showFullImage := showFullImage s; menuPosition := menuPosition s |}.

Definition withIsMediaLoading (v : bool) (s : State) : State :=
  {| showMenu := showMenu s; isPlaying := isPlaying s; isDeleting := isDeleting s;
     showDeleteOptions := showDeleteOptions s; isMediaLoading := v;
     showFullImage := showFullImage s; menuPosition := menuPosition s |}.

Definition withShowFullImage (v : bool) (s : State) : State :=
  {| showMenu := showMenu s; isPlaying := isPlaying s; isDeleting := isDeleting s;
     showDeleteOptions := showDeleteOptions s; isMediaLoading := isMediaLoading s;
     showFullImage := v; menuPosition := menuPosition s |}.

Definition withMenuPosition (v : MenuPosition) (s : State) : State :=
  {| showMenu := showMenu s; isPlaying := isPlaying s; isDeleting := isDeleting s;
     showDeleteOptions := showDeleteOptions s; isMediaLoading := isMediaLoading s;
     showFullImage := showFullImage s; menuPosition := v |}.

Definition setShowMenu (v : bool) : M unit := modify (withShowMenu v).

Definition setIsPlaying (v : bool) : M unit := modify (withIsPlaying v).

Definition setIsDeleting (v : bool) : M unit := modify (withIsDeleting v).

Definition setShowDeleteOptions (v : bool) : M unit := modify (withShowDeleteOptions v).

Definition setIsMediaLoading (v : bool) : M unit := modify (withIsMediaLoading v).

Definition setShowFullImage (v : bool) : M unit := modify (withShowFullImage v).

Definition setMenuPosition (v : MenuPosition) : M unit := modify (withMenuPosition v).

(** *** Calls into the environment *)

Definition alert (v : Js.value) : M unit := perform (Alert v).

Definition consoleError (label : string) (err : Js.value) : M unit :=
  perform (ConsoleError label err).

(** [onDelete(id, deleteForEveryone)]: the call is logged and answers with
    the settlement of the promise it returns. *)
Definition callOnDelete (cb : string -> bool -> Settlement)
           (messageId : string) (deleteForEveryone : bool) : M Settlement :=
  perform (CallOnDelete messageId deleteForEveryone) ;;
  ret (cb messageId deleteForEveryone).

(** [error.message]. *)
Definition readMessage (error : Js.value) : M Js.value :=
  match Js.getMessage error with
  | inl m => ret m
  | inr thrown => throw thrown
  end.

(** [navigator.clipboard.writeText(t)]. *)
Definition clipboardWriteText (nav : Navigator) (t : string) : M Settlement :=
  match clipboard nav with
  | Some writeText => perform (ClipboardWriteText t) ;; ret (writeText t)
  | None =>
      throw (Js.typeError "Cannot read properties of undefined (reading 'writeText')")
  end.

Definition navigatorShare (sh : ShareData -> Settlement) (d : ShareData) : M Settlement :=
  perform (NavigatorShare d) ;; ret (sh d).

(** *** The handlers *)

(** [handleClickOutside], the document's click listener. [a && !a.contains(t)]
    is [null] when the ref is null and a boolean otherwise. *)
Definition handleClickOutside (messageRef menuRef : option Element) (target : Node) : M unit :=
  s <- get ;;
  if showMenu s || showDeleteOptions s then
    let isClickOutsideMessage :=
      option_map (fun el => negb (contains el target)) messageRef in
    let isClickOutsideMenu :=
      option_map (fun el => negb (contains el target)) menuRef in
    if Js.truthyOptBool isClickOutsideMessage && Js.truthyOptBool isClickOutsideMenu then
      setShowMenu false ;;
      setShowDeleteOptions false
    else ret tt
  else ret tt.

(** The effect of lines 55-75 registers the listener only in this case. *)
Definition clickListenerRegistered (s : State) : bool :=
  showMenu s || showDeleteOptions s.

Definition calculateMenuPosition (dom : Dom) : M unit :=
  match messageEl dom with
  | None => ret tt
  | Some el =>
      let windowHeight := innerHeight dom in
      let spaceBelow := (windowHeight - rectBottom el)%float in
      setMenuPosition (if (spaceBelow <? 200)%float then top else bottom)
  end.

Definition handleMessageClick (dom : Dom) : M unit :=
  s <- get ;;
  if negb (showDeleteOptions s) then
    calculateMenuPosition dom ;;
    setShowMenu (negb (showMenu s))
  else ret tt.

Definition handleCopy (p : Props) (nav : Navigator) : M unit :=
  _ <- clipboardWriteText nav (text p) ;;
  setShowMenu false.

Definition shareData (p : Props) : ShareData :=
  {| sd_text := text p;
     sd_title := "Messaggio da " ++ senderName p;
     sd_url := if Js.truthyOptStr (mediaUrl p) then mediaUrl p else None |}.

Definition handleShare (p : Props) (nav : Navigator) : M unit :=
  tryCatch
    ((match share nav with
      | Some sh =>
          r <- navigatorShare sh (shareData p) ;;
          await r
      | None =>
          r <- clipboardWriteText nav (text p) ;;
          await r ;;
          alert (Js.Str "Messaggio copiato negli appunti!")
      end) ;;
     setShowMenu false)
    (fun error => consoleError "Errore durante la condivisione:" error).

(** The [catch] block of [handleDelete]. *)
Definition handleDelete_catch (error : Js.value) : M unit :=
  consoleError "Error deleting message:" error ;;
  m <- readMessage error ;;
  alert (Js.or m (Js.Str "Errore durante l'eliminazione del messaggio")).

Definition handleDelete (p : Props) (deleteForEveryone : bool) : M unit :=
  match onDelete p with
  | None => ret tt
  | Some cb =>
      tryFinally
        (tryCatch
           (setIsDeleting true ;;
            r <- callOnDelete cb (id p) deleteForEveryone ;;
            await r ;;
            setShowDeleteOptions false ;;
            setShowMenu false)
           handleDelete_catch)
        (setIsDeleting false)
  end.

(** [toggleAudio]; [audioRef] is [None] while the ref is null. *)
Definition toggleAudio (audioRef : option unit) : M unit :=
  perform StopPropagation ;;
  match audioRef with
  | None => ret tt
  | Some _ =>
      s <- get ;;
      (if isPlaying s then perform AudioPause else perform AudioPlay) ;;
      setIsPlaying (negb (isPlaying s))
  end.

Definition canDeleteForEveryone (p : Props) : option bool :=
  Js.orOptBool (Js.orOptBool (Some (isMe p)) (isAdmin p)) (isGroupCreator p).

(** [handleMediaLoad], local to [renderMedia]. *)
Definition handleMediaLoad : M unit := setIsMediaLoading false.

(** The anonymous [onClick] of the button [Elimina]. *)
Definition onClickElimina : M unit :=
  setShowDeleteOptions true ;;
  setShowMenu false.

(** The anonymous [onClick] of the button over a photo. *)
Definition onClickExpand : M unit :=
  perform StopPropagation ;;
  setShowFullImage true.

(** The anonymous [onEnded] of the [audio] element. *)
Definition onAudioEnded : M unit := setIsPlaying false.

(** *** What the component renders *)

(** The handler an element's event property is bound to. *)
Inductive Handler : Type :=
| OnMessageClick                        (* handleMessageClick *)
| OnCopy                                (* handleCopy *)
| OnShare                               (* handleShare *)
| OnElimina                             (* the arrow of the button Elimina *)
| OnDelete (deleteForEveryone : bool)   (* () => handleDelete(...) *)
| OnMediaLoad.                          (* handleMediaLoad *)

Definition Handler_eqb (a b : Handler) : bool :=
  match a, b with
  | OnMessageClick, OnMessageClick
  | OnCopy, OnCopy
  | OnShare, OnShare
  | OnElimina, OnElimina
  | OnMediaLoad, OnMediaLoad => true
  | OnDelete x, OnDelete y => Bool.eqb x y
  | _, _ => false
  end.

Record Button := {
  caption : string;
  onClick : Handler;
  disabled : bool
}.

(** The media element of a message. [onLoad] and [onLoadedData] are the
    properties of that name; [loadingIndicator] says whether the spinner (or,
    for audio, the progress bar) is rendered. *)
Record MediaView := {
  kind : MediaType;
  onLoad : option Handler;
  onLoadedData : option Handler;
  loadingIndicator : bool
}.

Definition renderMedia (p : Props) (s : State) : option MediaView :=
  if negb (Js.truthyOptStr (mediaUrl p)) then None
  else
    match mediaType p with
    | Some photo =>
        Some {| kind := photo; onLoad := Some OnMediaLoad; onLoadedData := None;
                loadingIndicator := isMediaLoading s |}
    | Some video =>
        Some {| kind := video; onLoad := None; onLoadedData := Some OnMediaLoad;
                loadingIndicator := isMediaLoading s |}
    | Some audio =>
        Some {| kind := audio; onLoad := None; onLoadedData := Some OnMediaLoad;
                loadingIndicator := isMediaLoading s |}
    | Some document =>
        Some {| kind := document; onLoad := None; onLoadedData := None;
                loadingIndicator := false |}
    | None => None
    end.

(** The popup menu, the element that carries [ref={menuRef}]: rendered under
    [showMenu && !showDeleteOptions && (text || mediaUrl)]. *)
Definition renderMenu (p : Props) (s : State) : option (list Button) :=
  if showMenu s && negb (showDeleteOptions s)
     && (Js.truthyStr (text p) || Js.truthyOptStr (mediaUrl p))
  then
    Some ((if Js.truthyStr (text p)
           then [ {| caption := "Copia"; onClick := OnCopy; disabled := false |};
                  {| caption := "Condividi"; onClick := OnShare; disabled := false |} ]
           else [])
          ++ [ {| caption := "Elimina"; onClick := OnElimina; disabled := false |} ])
  else None.

(** The delete-options menu, rendered under [showDeleteOptions]; it carries
    no ref. *)
Definition renderDeleteOptions (p : Props) (s : State) : option (list Button) :=
  if showDeleteOptions s then
    Some ([ {| caption := if isDeleting s then "Eliminazione..." else "Elimina per me";
               onClick := OnDelete false;
               disabled := isDeleting s |} ]
          ++ (if Js.truthyOptBool (canDeleteForEveryone p)
              then [ {| caption := if isDeleting s then "Eliminazione..."
                                   else "Elimina per tutti";
                        onClick := OnDelete true;
                        disabled := isDeleting s |} ]
              else []))
  else None.

Record View := {
  bubbleOnClick : Handler;
  media : option MediaView;
  menu : option (list Button);
  deleteOptions : option (list Button)
}.

(** The returned markup, reduced to the elements that carry a handler, a ref
    or a condition on the state: the branch of a sent message ([isMe]) and the
    branch of a received one hold the same bubble and the same two menus. *)
Definition render (p : Props) (s : State) : View :=
  if isMe p then
    {| bubbleOnClick := OnMessageClick;
       media := renderMedia p s;
       menu := renderMenu p s;
       deleteOptions := renderDeleteOptions p s |}
  else
    {| bubbleOnClick := OnMessageClick;
       media := renderMedia p s;
       menu := renderMenu p s;
       deleteOptions := renderDeleteOptions p s |}.

(** [menuRef.current] after the render of [s]: React attaches the ref while
    the element that carries it is mounted and resets it to [null] when that
    element is unmounted. *)
Definition menuRef_current (p : Props) (s : State) (dom : Dom) : option Element :=
  match menu (render p s) with
  | Some _ => Some (menuEl dom)
  | None => None
  end.

(** [audioRef.current] after the render of [s]. *)
Definition audioRef_current (p : Props) (s : State) : option unit :=
  match media (render p s) with
  | Some v => match kind v with audio => Some tt | _ => None end
  | None => None
  end.

Definition hasButton (h : Handler) (bs : option (list Button)) : bool :=
  match bs with
  | Some l => existsb (fun b => Handler_eqb (onClick b) h) l
  | None => false
  end.

(** A button that can be clicked: rendered and not disabled. *)
Definition clickable (h : Handler) (bs : option (list Button)) : bool :=
  match bs with
  | Some l => existsb (fun b => Handler_eqb (onClick b) h && negb (disabled b)) l
  | None => false
  end.

(** *** The component over time *)

(** An [async] handler runs up to its [await] inside the event that called
    it and goes on in a later turn, when the promise has settled. The part
    of [handleDelete] after [await onDelete(...)]: *)
Definition handleDelete_resume (r : Settlement) : M unit :=
  tryFinally
    (tryCatch
       (await r ;;
        setShowDeleteOptions false ;;
        setShowMenu false)
       handleDelete_catch)
    (setIsDeleting false).

(** The part of [handleShare] after its [await]; [viaShare] tells the branch
    of [if (navigator.share)] it was suspended in. *)
Definition handleShare_resume (viaShare : bool) (r : Settlement) : M unit :=
  tryCatch
    ((await r ;;
      (if viaShare then ret tt
       else alert (Js.Str "Messaggio copiato negli appunti!"))) ;;
     setShowMenu false)
    (fun error => consoleError "Errore durante la condivisione:" error).

(** The same properties with an [onDelete] whose promise is still pending:
    running [handleDelete] on them gives the handler up to its [await]. *)
Definition unsettled (p : Props) : Props :=
  {| id := id p; text := text p; isMe := isMe p; senderName := senderName p;
     mediaUrl := mediaUrl p; mediaType := mediaType p; fileName := fileName p;
     onDelete := option_map (fun _ => fun _ _ => Pending) (onDelete p);
     isGroupChat := isGroupChat p; isAdmin := isAdmin p;
     isGroupCreator := isGroupCreator p;
     readBy := readBy p; deliveredTo := deliveredTo p |}.

Definition unsettledNav (nav : Navigator) : Navigator :=
  {| share := option_map (fun _ => fun _ => Pending) (share nav);
     clipboard := option_map (fun _ => fun _ => Pending) (clipboard nav) |}.

(** The promise [handleShare] awaits, with the branch it is awaited in. *)
Definition sharePromise (p : Props) (nav : Navigator) : option (bool * Settlement) :=
  match share nav with
  | Some sh => Some (true, sh (shareData p))
  | None =>
      match clipboard nav with
      | Some writeText => Some (false, writeText (text p))
      | None => None
      end
  end.

(** The mounted component: its state, the promises its suspended handlers
    wait for, and everything it has done so far. *)
Record World := {
  ui : State;
  awaitingDelete : list Settlement;
  awaitingShare : list (bool * Settlement);
  log : list Effect
}.

Definition initialWorld : World :=
  {| ui := initialState; awaitingDelete := []; awaitingShare := []; log := [] |}.

Inductive Event : Type :=
| ClickMessage (dom : Dom)                  (* click on the bubble *)
| ClickCopy (nav : Navigator)               (* click on Copia *)
| ClickShare (nav : Navigator)              (* click on Condividi *)
| ShareSettled (i : nat)                    (* the i-th awaited share settles *)
| ClickElimina                              (* click on Elimina *)
| ClickDelete (deleteForEveryone : bool)    (* click on a delete button *)
| DeleteSettled (i : nat)                   (* the i-th awaited onDelete settles *)
| DocumentClick (dom : Dom) (target : Node) (* a click reaches the document *)
| MediaLoaded                               (* load / loadeddata of the media *)
| ClickToggleAudio
| AudioEnded
| ClickExpand.

Definition commit {A} (w : World) (r : Run A) : World :=
  {| ui := state r; awaitingDelete := awaitingDelete w;
     awaitingShare := awaitingShare w; log := log w ++ effects r |}.

Definition setAwaitingDelete (l : list Settlement) (w : World) : World :=
  {| ui := ui w; awaitingDelete := l; awaitingShare := awaitingShare w; log := log w |}.

Definition setAwaitingShare (l : list (bool * Settlement)) (w : World) : World :=
  {| ui := ui w; awaitingDelete := awaitingDelete w; awaitingShare := l; log := log w |}.

Fixpoint removeNth {A} (i : nat) (l : list A) : list A :=
  match l, i with
  | [], _ => []
  | _ :: rest, 0 => rest
  | x :: rest, S j => x :: removeNth j rest
  end.

Definition isSuspended {A} (c : Completion A) : bool :=
  match c with Suspended => true | _ => false end.

(** One event. A click runs the handler up to its first [await]; a
    settlement resumes the handler that waits for it. *)
Definition step (p : Props) (w : World) (ev : Event) : World :=
  match ev with
  | ClickMessage dom => commit w (handleMessageClick dom (ui w))
  | ClickCopy nav => commit w (handleCopy p nav (ui w))
  | ClickShare nav =>
      let r := handleShare p (unsettledNav nav) (ui w) in
      match isSuspended (completion r), sharePromise p nav with
      | true, Some pr => setAwaitingShare (awaitingShare w ++ [pr]) (commit w r)
      | _, _ => commit w r
      end
  | ShareSettled i =>
      match nth_error (awaitingShare w) i with
      | Some (_, Pending) | None => w
      | Some (viaShare, r) =>
          setAwaitingShare (removeNth i (awaitingShare w))
            (commit w (handleShare_resume viaShare r (ui w)))
      end
  | ClickElimina => commit w (onClickElimina (ui w))
  | ClickDelete b =>
      let r := handleDelete (unsettled p) b (ui w) in
      match isSuspended (completion r), onDelete p with
      | true, Some cb => setAwaitingDelete (awaitingDelete w ++ [cb (id p) b]) (commit w r)
      | _, _ => commit w r
      end
  | DeleteSettled i =>
      match nth_error (awaitingDelete w) i with
      | Some Pending | None => w
      | Some r =>
          setAwaitingDelete (removeNth i (awaitingDelete w))
            (commit w (handleDelete_resume r (ui w)))
      end
  | DocumentClick dom target =>
      if clickListenerRegistered (ui w) then
        commit w (handleClickOutside (messageEl dom) (menuRef_current p (ui w) dom)
                                     target (ui w))
      else w
  | MediaLoaded => commit w (handleMediaLoad (ui w))
  | ClickToggleAudio => commit w (toggleAudio (audioRef_current p (ui w)) (ui w))
  | AudioEnded => commit w (onAudioEnded (ui w))
  | ClickExpand => commit w (onClickExpand (ui w))
  end.

Definition mediaKindIs (k : MediaType) (v : View) : bool :=
  match media v with
  | Some m =>
      match kind m, k with
      | photo, photo | video, video | audio, audio | document, document => true
      | _, _ => false
      end
  | None => false
  end.

Definition isSettled (r : Settlement) : bool :=
  match r with Pending => false | _ => true end.

(** Whether the page can produce the event: a button is clicked only while
    it is rendered and not disabled, a media event needs the element that
    listens for it, a settlement needs the promise. *)
Definition enabled (p : Props) (w : World) (ev : Event) : bool :=
  let v := render p (ui w) in
  match ev with
  | ClickMessage _ => true
  | ClickCopy _ => clickable OnCopy (menu v)
  | ClickShare _ => clickable OnShare (menu v)
  | ShareSettled i =>
      match nth_error (awaitingShare w) i with
      | Some (_, r) => isSettled r
      | None => false
      end
  | ClickElimina => clickable OnElimina (menu v)
  | ClickDelete b => clickable (OnDelete b) (deleteOptions v)
  | DeleteSettled i =>
      match nth_error (awaitingDelete w) i with
      | Some r => isSettled r
      | None => false
      end
  | DocumentClick _ _ => true
  | MediaLoaded =>
      match media v with
      | Some m =>
          match onLoad m, onLoadedData m with
          | None, None => false
          | _, _ => true
          end
      | None => false
      end
  | ClickToggleAudio | AudioEnded => mediaKindIs audio v
  | ClickExpand => mediaKindIs photo v
  end.

(** Any sequence of events, whether the page can produce it or not. *)
Definition run (p : Props) (w : World) (evs : list Event) : World :=
  fold_left (step p) evs w.

(** A sequence of events the page can produce; [None] when one of them
    cannot happen where it stands. *)
Fixpoint exec (p : Props) (w : World) (evs : list Event) : option World :=
  match evs with
  | [] => Some w
  | ev :: rest => if enabled p w ev then exec p (step p w ev) rest else None
  end.

(** *** Vocabulary of the properties *)

Definition isCallOnDelete (e : Effect) : bool :=
  match e with CallOnDelete _ _ => true | _ => false end.

Definition isAlert (e : Effect) : bool :=
  match e with Alert _ => true | _ => false end.

(** The calls of [onDelete] and the alerts among the effects of a run. *)
Definition callsOfOnDelete {A} (r : Run A) : list Effect :=
  filter isCallOnDelete (effects r).

Definition alertsOf {A} (r : Run A) : list Effect :=
  filter isAlert (effects r).

(** The two menus are not open together. *)
Definition exclusive (s : State) : bool :=
  negb (showMenu s && showDeleteOptions s).

(** Every button of a menu carries [disabled = isDeleting]. *)
Definition disabledFollowsIsDeleting (s : State) (bs : option (list Button)) : Prop :=
  match bs with
  | Some l => Forall (fun b => disabled b = isDeleting s) l
  | None => True
  end.

(** The calls of [onDelete] whose promise [handleDelete] is waiting for. *)
Definition deletionsInFlight (w : World) : nat := List.length (awaitingDelete w).

(** [isDeleting] is true while one call of [onDelete] is awaited and false
    while none is; there is never more than one. *)
Definition deletingWhileAwaiting (w : World) : Prop :=
  (isDeleting (ui w) = true /\ deletionsInFlight w = 1)
  \/ (isDeleting (ui w) = false /\ deletionsInFlight w = 0).

(** The viewer is the sender, a group admin or the group creator. *)
Definition privileged (p : Props) : bool :=
  isMe p || Js.truthyOptBool (isAdmin p) || Js.truthyOptBool (isGroupCreator p).

Definition fallbackText : string := "Errore durante l'eliminazione del messaggio".

(** *** Sample data *)

Definition sampleMessageEl : Element :=
  {| contains := fun n => n <? 10; rectBottom := 650.5%float |}.

Definition sampleMenuEl : Element :=
  {| contains := fun n => (4 <? n) && (n <? 10); rectBottom := 700%float |}.

Definition sampleDom : Dom :=
  {| messageEl := Some sampleMessageEl; menuEl := sampleMenuEl;
     innerHeight := 800%float |}.

(** A received text message in a chat where the viewer has no special role. *)
Definition sampleProps (cb : option (string -> bool -> Settlement)) : Props :=
  {| id := "m1"; text := "ciao"; isMe := false; senderName := "Ada";
     mediaUrl := None; mediaType := None; fileName := None;
     onDelete := cb;
     isGroupChat := None; isAdmin := None; isGroupCreator := None;
     readBy := []; deliveredTo := [] |}.

(** The state with the delete-options menu open. *)
Definition deleteOptionsOpen : State :=
  {| showMenu := false; isPlaying := false; isDeleting := false;
     showDeleteOptions := true; isMediaLoading := true;
     showFullImage := false; menuPosition := top |}.

(** *** More of the markup *)

(** [renderDeliveryStatus]: nothing for a received message; for a sent one the
    class of the double tick, read before delivered. [readBy] and
    [deliveredTo] default to the empty array. *)
Definition renderDeliveryStatus (p : Props) : option string :=
  if negb (isMe p) then None
  else
    let isRead := 0 <? List.length (readBy p) in
    let isDelivered := 0 <? List.length (deliveredTo p) in
    Some ("double-tick " ++
          (if isRead then "tick-read"
           else if isDelivered then "tick-delivered" else ""))%string.

(** The class that highlights the bubble,
    [(showMenu || showDeleteOptions) ? 'ring-2 ...' : '']. *)
Definition bubbleHighlighted (s : State) : bool :=
  showMenu s || showDeleteOptions s.

(** *** More vocabulary *)

(** A message with neither text nor media. *)
Definition emptyMessage (p : Props) : bool :=
  negb (Js.truthyStr (text p)) && negb (Js.truthyOptStr (mediaUrl p)).


(** A call of [onDelete] the viewer is entitled to: for this message, and for
    everyone only when the viewer is the sender, an admin or the creator. *)
Definition requestAllowed (p : Props) (e : Effect) : bool :=
  match e with
  | CallOnDelete m forEveryone => String.eqb m (id p) && implb forEveryone (privileged p)
  | _ => true
  end.

(** An alert that shows something: its argument is truthy. *)
Definition alertShowsText (e : Effect) : bool :=
  match e with
  | Alert v => Js.truthy v
  | _ => true
  end.

Definition isConsoleError (e : Effect) : bool :=
  match e with ConsoleError _ _ => true | _ => false end.

(** The last command sent to the [audio] element, if any. *)
Fixpoint lastAudioCommand (l : list Effect) : option Effect :=
  match l with
  | [] => None
  | e :: rest =>
      match lastAudioCommand rest with
      | Some c => Some c
      | None =>
          match e with
          | AudioPlay => Some AudioPlay
          | AudioPause => Some AudioPause
          | _ => None
          end
      end
  end.

(** Neither a call of [onDelete] nor a command to the [audio] element. *)
Definition quiet (l : list Effect) : Prop :=
  filter isCallOnDelete l = [] /\ lastAudioCommand l = None.

(** A promise that is (or will be) fulfilled. *)
Definition isFulfilled (r : Settlement) : bool :=
  match r with Resolves => true | _ => false end.

(** No deletion can succeed: neither a call still awaited nor a call the
    callback would answer is fulfilled. *)
Definition noDeletionSucceeds (p : Props) (w : World) : Prop :=
  forallb (fun r => negb (isFulfilled r)) (awaitingDelete w) = true
  /\ forall b : bool,
       match onDelete p with
       | Some cb => isFulfilled (cb (id p) b) = false
       | None => True
       end.

(** A voice message: media of type audio with a URL. *)
Definition sampleAudioProps : Props :=
  {| id := "m2"; text := ""; isMe := true; senderName := "Bo";
     mediaUrl := Some "https://cdn.example/voice.ogg"; mediaType := Some audio;
     fileName := None; onDelete := None;
     isGroupChat := None; isAdmin := None; isGroupCreator := None;
     readBy := ["u7"]; deliveredTo := ["u7"; "u9"] |}.

(** A message with neither text nor media. *)
Definition sampleEmptyProps : Props :=
  {| id := "m3"; text := ""; isMe := true; senderName := "Bo";
     mediaUrl := None; mediaType := None;
     fileName := None; onDelete := Some (fun _ _ => Resolves);
     isGroupChat := None; isAdmin := None; isGroupCreator := None;
     readBy := []; deliveredTo := [] |}.

End MessageItem.

(* ------------------------------------------------------------------ *)
(** ** Properties of the hook *)

Module NativeBehaviorSpec.
Import NativeBehavior.

Lemma sameListener_fresh (ty : string) (cb : nat) (f : TouchEvent -> list EventCall) (pas : bool) :
  sameListener ty cb false
    {| evType := ty; callback := cb; run := f; capture := false; passive := pas |} = true.
Proof.
  unfold sameListener; simpl.
  now rewrite String.eqb_refl, Nat.eqb_refl.
Qed.

Lemma listening_addEventListener (ty : string) (cb : nat) f pas (doc : Document) :
  listening ty cb (addEventListener ty cb f pas doc) = true.
Proof.
  unfold listening, addEventListener.
  destruct (existsb (sameListener ty cb false) doc) eqn:Hin; [exact Hin|].
  rewrite existsb_app, Hin; simpl.
  now rewrite sameListener_fresh.
Qed.

Lemma listening_removeEventListener (ty : string) (cb : nat) (doc : Document) :
  listening ty cb (removeEventListener ty cb doc) = false.
Proof.
  unfold listening, removeEventListener.
  induction doc as [|l doc IH]; simpl; [reflexivity|].
  destruct (sameListener ty cb false l) eqn:Hl; simpl; [exact IH|].
  now rewrite Hl.
Qed.

Lemma removeEventListener_absent (ty : string) (cb : nat) (doc : Document) :
  listening ty cb doc = false -> removeEventListener ty cb doc = doc.
Proof.
  unfold listening, removeEventListener.
  induction doc as [|l doc IH]; simpl; [reflexivity|].
  intros H. apply orb_false_iff in H as [Hl Hdoc].
  rewrite Hl; simpl. now rewrite IH.
Qed.

(** Mounting and then cleaning up gives the document its listeners back,
    the closure of the effect being a new function. *)
Lemma cleanup_restores (fn : nat) (doc : Document) :
  listening "touchstart" fn doc = false ->
  cleanup (useNativeBehavior fn doc) (mounted (useNativeBehavior fn doc)) = doc.
Proof.
  intros Hfresh. simpl. unfold addEventListener.
  fold (listening "touchstart" fn doc). rewrite Hfresh.
  unfold removeEventListener. rewrite filter_app; simpl.
  rewrite sameListener_fresh; simpl. rewrite app_nil_r.
  now apply removeEventListener_absent.
Qed.

Lemma handleGesture_multi (e : TouchEvent) :
  handleGesture e = [PreventDefault] <-> 1 < List.length (touches e).
Proof.
  unfold handleGesture.
  destruct (Nat.ltb_spec 1 (List.length (touches e))) as [H|H]; split; intros H'.
  - exact H.
  - reflexivity.
  - discriminate H'.
  - lia.
Qed.

Lemma handleGesture_single (e : TouchEvent) :
  handleGesture e = [] <-> List.length (touches e) <= 1.
Proof.
  unfold handleGesture.
  destruct (Nat.ltb_spec 1 (List.length (touches e))) as [H|H]; split; intros H'.
  - discriminate H'.
  - lia.
  - exact H.
  - reflexivity.
Qed.

(** C6. The handler that [useNativeBehavior] registers for [touchstart]
    calls [preventDefault] exactly when the event carries more than one
    touch point and does nothing to an event with at most one; the listener
    is on the document after the mount and no longer after the cleanup. *)
Theorem useNativeBehavior_suppresses_multitouch :
  forall (fn : nat) (doc : Document) (e : TouchEvent),
    let hook := useNativeBehavior fn doc in
    (handleGesture e = [PreventDefault] <-> 1 < List.length (touches e))
    /\ (handleGesture e = [] <-> List.length (touches e) <= 1)
    /\ dispatch "touchstart" e (mounted (useNativeBehavior fn [])) = handleGesture e
    /\ listening "touchstart" fn (mounted hook) = true
    /\ listening "touchstart" fn (cleanup hook (mounted hook)) = false
    /\ dispatch "touchstart" e (cleanup hook (mounted (useNativeBehavior fn []))) = [].
Proof.
  intros fn doc e hook.
  split; [apply handleGesture_multi|].
  split; [apply handleGesture_single|].
  split; [simpl; now rewrite app_nil_r|].
  split; [apply listening_addEventListener|].
  split; [apply listening_removeEventListener|].
  simpl. rewrite sameListener_fresh. reflexivity.
Qed.

(** X19. Mounted on a document where its closure is not yet listening,
    [useNativeBehavior] adds one non-passive, non-capturing [touchstart]
    listener after the existing ones and leaves those alone: events of every
    other type are dispatched as before, a [touchstart] reaches the old
    listeners first and then [handleGesture], and the cleanup gives back
    exactly the listeners there were. *)
Theorem useNativeBehavior_leaves_other_listeners :
  forall (fn : nat) (doc : Document) (ty : string) (e : TouchEvent),
    listening "touchstart" fn doc = false ->
    let hook := useNativeBehavior fn doc in
    mounted hook
    = doc ++ [{| evType := "touchstart"; callback := fn; run := handleGesture;
                 capture := false; passive := false |}]
    /\ dispatch ty e (mounted hook)
       = dispatch ty e doc
         ++ (if String.eqb "touchstart" ty then handleGesture e else [])
    /\ cleanup hook (mounted hook) = doc.
Proof.
  intros fn doc ty e Hfresh hook.
  assert (Hm : mounted hook
               = doc ++ [{| evType := "touchstart"; callback := fn; run := handleGesture;
                            capture := false; passive := false |}]).
  { subst hook. simpl. unfold addEventListener.
    fold (listening "touchstart" fn doc). now rewrite Hfresh. }
  split; [exact Hm|].
  split.
  - rewrite Hm. unfold dispatch. rewrite flat_map_app. simpl.
    now rewrite app_nil_r.
  - now apply cleanup_restores.
Qed.

Lemma useNativeBehavior_leaves_other_listeners_witness :
  dispatch "touchstart" {| touches := [{| identifier := 0 |}; {| identifier := 1 |}] |}
    (mounted (useNativeBehavior 5
       [{| evType := "touchstart"; callback := 3; run := fun _ => [];
           capture := false; passive := true |}]))
  = dispatch "touchstart" {| touches := [{| identifier := 0 |}; {| identifier := 1 |}] |}
      [{| evType := "touchstart"; callback := 3; run := fun _ => [];
          capture := false; passive := true |}]
    ++ handleGesture {| touches := [{| identifier := 0 |}; {| identifier := 1 |}] |}.
Proof.
  exact (proj1 (proj2 (useNativeBehavior_leaves_other_listeners 5
           [{| evType := "touchstart"; callback := 3; run := fun _ => [];
               capture := false; passive := true |}]
           "touchstart"
           {| touches := [{| identifier := 0 |}; {| identifier := 1 |}] |}
           eq_refl))).
Defined.

End NativeBehaviorSpec.

(* ------------------------------------------------------------------ *)
(** ** Properties of the component *)

Module MessageItemSpec.
Import MessageItem.

(** Unfolds the monad so that a handler applied to a state computes. *)
Ltac unfold_monad :=
  cbv [bind ret throw perform get modify await tryCatch tryFinally
       setShowMenu setIsPlaying setIsDeleting setShowDeleteOptions
       setIsMediaLoading setShowFullImage setMenuPosition
       alert consoleError callOnDelete readMessage clipboardWriteText
       navigatorShare completion state effects app].

(** *** [handleDelete], case by case *)

Lemma handleDelete_without_callback (p : Props) (flag : bool) (s : State) :
  onDelete p = None ->
  handleDelete p flag s = mkRun (Normal tt) s [].
Proof.
  intros H. unfold handleDelete. rewrite H. reflexivity.
Qed.

Lemma handleDelete_fulfilled (p : Props) (flag : bool) (s : State) cb :
  onDelete p = Some cb ->
  cb (id p) flag = Resolves ->
  handleDelete p flag s =
  mkRun (Normal tt)
        (withIsDeleting false
           (withShowMenu false (withShowDeleteOptions false (withIsDeleting true s))))
        [CallOnDelete (id p) flag].
Proof.
  intros H Hcb. unfold handleDelete. rewrite H.
  unfold_monad. rewrite Hcb. reflexivity.
Qed.

Lemma handleDelete_pending (p : Props) (flag : bool) (s : State) cb :
  onDelete p = Some cb ->
  cb (id p) flag = Pending ->
  handleDelete p flag s =
  mkRun Suspended (withIsDeleting true s) [CallOnDelete (id p) flag].
Proof.
  intros H Hcb. unfold handleDelete. rewrite H.
  unfold_monad. rewrite Hcb. reflexivity.
Qed.

(** A rejection whose reason has a readable [message] (anything but
    [undefined] and [null]) is logged and shown, and the handler completes. *)
Lemma handleDelete_rejected (p : Props) (flag : bool) (s : State) cb e m :
  onDelete p = Some cb ->
  cb (id p) flag = Rejects e ->
  Js.getMessage e = inl m ->
  handleDelete p flag s =
  mkRun (Normal tt)
        (withIsDeleting false (withIsDeleting true s))
        [CallOnDelete (id p) flag;
         ConsoleError "Error deleting message:" e;
         Alert (Js.or m (Js.Str fallbackText))].
Proof.
  intros H Hcb Hm. unfold handleDelete, handleDelete_catch. rewrite H.
  unfold_monad. rewrite Hcb. cbv beta iota. rewrite Hm. reflexivity.
Qed.

(** A rejection whose reason is [undefined] or [null]: reading [message] in
    the [catch] block throws, nothing is shown, and what [handleDelete]
    completes with is that throw. *)
Lemma handleDelete_rejected_unreadable (p : Props) (flag : bool) (s : State) cb e t :
  onDelete p = Some cb ->
  cb (id p) flag = Rejects e ->
  Js.getMessage e = inr t ->
  handleDelete p flag s =
  mkRun (Throw t)
        (withIsDeleting false (withIsDeleting true s))
        [CallOnDelete (id p) flag;
         ConsoleError "Error deleting message:" e].
Proof.
  intros H Hcb Hm. unfold handleDelete, handleDelete_catch. rewrite H.
  unfold_monad. rewrite Hcb. cbv beta iota. rewrite Hm. reflexivity.
Qed.

(** C3. When [onDelete] is provided, [handleDelete(deleteForEveryone)] calls
    it exactly once, with the [id] the component received and the flag it was
    given, whatever the promise does afterwards; without a callback nothing is
    called. *)
Theorem handleDelete_passes_through :
  forall (p : Props) (flag : bool) (s : State),
    match onDelete p with
    | Some _ => callsOfOnDelete (handleDelete p flag s) = [CallOnDelete (id p) flag]
    | None => callsOfOnDelete (handleDelete p flag s) = []
    end.
Proof.
  intros p flag s.
  destruct (onDelete p) as [cb|] eqn:H.
  - destruct (cb (id p) flag) as [|e|] eqn:Hcb.
    + now rewrite (handleDelete_fulfilled p flag s cb H Hcb).
    + destruct (Js.getMessage e) as [m|t] eqn:Hm.
      * now rewrite (handleDelete_rejected p flag s cb e m H Hcb Hm).
      * now rewrite (handleDelete_rejected_unreadable p flag s cb e t H Hcb Hm).
    + now rewrite (handleDelete_pending p flag s cb H Hcb).
  - now rewrite (handleDelete_without_callback p flag s H).
Qed.

(** C10. Without a callback [handleDelete] returns at once and changes
    nothing. With one: when the promise is rejected, [showDeleteOptions] and
    [showMenu] keep their values and [isDeleting] is back to false; only when
    it is fulfilled are both menus closed; while it is pending the menus are
    as they were and [isDeleting] is true. *)
Theorem handleDelete_menu_state :
  forall (p : Props) (flag : bool) (s : State),
    let r := handleDelete p flag s in
    match onDelete p with
    | None => r = mkRun (Normal tt) s []
    | Some cb =>
        match cb (id p) flag with
        | Resolves =>
            showDeleteOptions (state r) = false
            /\ showMenu (state r) = false
            /\ isDeleting (state r) = false
        | Rejects _ =>
            showDeleteOptions (state r) = showDeleteOptions s
            /\ showMenu (state r) = showMenu s
            /\ isDeleting (state r) = false
        | Pending =>
            showDeleteOptions (state r) = showDeleteOptions s
            /\ showMenu (state r) = showMenu s
            /\ isDeleting (state r) = true
        end
    end.
Proof.
  intros p flag s r. subst r.
  destruct (onDelete p) as [cb|] eqn:H.
  - destruct (cb (id p) flag) as [|e|] eqn:Hcb.
    + rewrite (handleDelete_fulfilled p flag s cb H Hcb). simpl. auto.
    + destruct (Js.getMessage e) as [m|t] eqn:Hm.
      * rewrite (handleDelete_rejected p flag s cb e m H Hcb Hm). simpl. auto.
      * rewrite (handleDelete_rejected_unreadable p flag s cb e t H Hcb Hm). simpl. auto.
    + rewrite (handleDelete_pending p flag s cb H Hcb). simpl. auto.
  - apply handleDelete_without_callback, H.
Qed.

(** C1, at a promise rejected without a reason ([Promise.reject()], or
    [throw undefined] in an async [onDelete]): the [catch] block logs the
    error and then throws a [TypeError] on [error.message]; no alert is
    shown and [handleDelete] itself ends rejected. *)
Theorem handleDelete_rejection_without_reason :
  let p := sampleProps (Some (fun _ _ => Rejects Js.Undefined)) in
  let r := handleDelete p false deleteOptionsOpen in
  match completion r with
  | Throw e => Js.isTypeError e = true
  | _ => False
  end
  /\ alertsOf r = []
  /\ effects r = [CallOnDelete "m1" false;
                  ConsoleError "Error deleting message:" Js.Undefined].
Proof.
  cbv zeta.
  rewrite (handleDelete_rejected_unreadable
             (sampleProps (Some (fun _ _ => Rejects Js.Undefined))) false deleteOptionsOpen
             (fun _ _ => Rejects Js.Undefined) Js.Undefined
             (Js.typeError "Cannot read properties of undefined (reading 'message')")
             eq_refl eq_refl eq_refl).
  repeat split.
Qed.

(** *** The position of the popup menu *)

(** C2. With the message element attached, [calculateMenuPosition] sets the
    position to [top] exactly when [window.innerHeight] minus the bottom of
    the message is less than 200, and to [bottom] otherwise; it writes no
    other cell. With the ref null it does nothing. *)
Theorem calculateMenuPosition_by_space_below :
  forall (dom : Dom) (s : State),
    let r := calculateMenuPosition dom s in
    match messageEl dom with
    | Some el =>
        let spaceBelow := (innerHeight dom - rectBottom el)%float in
        (menuPosition (state r) = top <-> (spaceBelow <? 200)%float = true)
        /\ (menuPosition (state r) = bottom <-> (spaceBelow <? 200)%float = false)
        /\ state r = withMenuPosition (menuPosition (state r)) s
    | None => state r = s
    end.
Proof.
  intros dom s r. subst r. unfold calculateMenuPosition.
  destruct (messageEl dom) as [el|]; [|reflexivity].
  cbv zeta. unfold_monad.
  destruct (PrimFloat.ltb (PrimFloat.sub (innerHeight dom) (rectBottom el)) 200) eqn:Hlt;
    simpl; repeat split; intros; try reflexivity; try discriminate.
Qed.

Example calculateMenuPosition_near_the_bottom :
  menuPosition (state (calculateMenuPosition sampleDom initialState)) = top.
Proof. reflexivity. Qed.

Example calculateMenuPosition_exactly_200 :
  menuPosition
    (state (calculateMenuPosition
              {| messageEl := Some {| contains := fun _ => true; rectBottom := 600%float |};
                 menuEl := sampleMenuEl; innerHeight := 800%float |}
              (withMenuPosition top initialState))) = bottom.
Proof. reflexivity. Qed.

(** *** What the delete-options menu offers *)

Lemma render_deleteOptions (p : Props) (s : State) :
  deleteOptions (render p s) = renderDeleteOptions p s.
Proof. unfold render. now destruct (isMe p). Qed.

Lemma render_menu (p : Props) (s : State) :
  menu (render p s) = renderMenu p s.
Proof. unfold render. now destruct (isMe p). Qed.

Lemma render_media (p : Props) (s : State) :
  media (render p s) = renderMedia p s.
Proof. unfold render. now destruct (isMe p). Qed.

Lemma canDeleteForEveryone_privileged (p : Props) :
  Js.truthyOptBool (canDeleteForEveryone p) = privileged p.
Proof.
  unfold canDeleteForEveryone, privileged, Js.orOptBool.
  destruct (isMe p), (isAdmin p) as [[|]|], (isGroupCreator p) as [[|]|]; reflexivity.
Qed.

Lemma privileged_spec (p : Props) :
  privileged p = true <->
  isMe p = true \/ isAdmin p = Some true \/ isGroupCreator p = Some true.
Proof.
  unfold privileged.
  destruct (isMe p), (isAdmin p) as [[|]|], (isGroupCreator p) as [[|]|]; simpl;
    split; intros H; auto;
    try discriminate H;
    destruct H as [H|[H|H]]; discriminate H.
Qed.

(** C8. In the open delete-options menu the button that deletes for everyone
    is rendered if and only if the viewer is the sender, a group admin or the
    group creator; the button that deletes for the viewer alone is always
    there, and the menu holds nothing else. *)
Theorem delete_for_everyone_iff_privileged :
  forall (p : Props) (s : State),
    showDeleteOptions s = true ->
    (hasButton (OnDelete true) (deleteOptions (render p s)) = true <->
     isMe p = true \/ isAdmin p = Some true \/ isGroupCreator p = Some true)
    /\ hasButton (OnDelete false) (deleteOptions (render p s)) = true
    /\ deleteOptions (render p s) =
       Some ({| caption := if isDeleting s then "Eliminazione..." else "Elimina per me";
                onClick := OnDelete false;
                disabled := isDeleting s |}
             :: (if privileged p
                 then [ {| caption := if isDeleting s then "Eliminazione..."
                                      else "Elimina per tutti";
                           onClick := OnDelete true;
                           disabled := isDeleting s |} ]
                 else [])).
Proof.
  intros p s Hopen.
  rewrite render_deleteOptions. unfold renderDeleteOptions.
  rewrite Hopen, canDeleteForEveryone_privileged.
  rewrite <- privileged_spec.
  destruct (privileged p); simpl; repeat split; auto; discriminate.
Qed.

Lemma delete_for_everyone_iff_privileged_witness :
  deleteOptions (render (sampleProps None) deleteOptionsOpen) =
  Some [ {| caption := "Elimina per me"; onClick := OnDelete false; disabled := false |} ].
Proof.
  exact (proj2 (proj2 (delete_for_everyone_iff_privileged
                         (sampleProps None) deleteOptionsOpen eq_refl))).
Defined.

(** *** The state each handler leaves *)

Lemma calculateMenuPosition_state (dom : Dom) (s : State) :
  state (calculateMenuPosition dom s) =
  match messageEl dom with
  | Some el =>
      withMenuPosition
        (if (innerHeight dom - rectBottom el <? 200)%float then top else bottom) s
  | None => s
  end.
Proof. unfold calculateMenuPosition. now destruct (messageEl dom). Qed.

Lemma handleMessageClick_state (dom : Dom) (s : State) :
  state (handleMessageClick dom s) =
  if showDeleteOptions s then s
  else withShowMenu (negb (showMenu s)) (state (calculateMenuPosition dom s)).
Proof.
  unfold handleMessageClick, calculateMenuPosition. unfold_monad.
  destruct (showDeleteOptions s); simpl; [reflexivity|].
  now destruct (messageEl dom).
Qed.

Lemma handleCopy_state (p : Props) (nav : Navigator) (s : State) :
  state (handleCopy p nav s) =
  match clipboard nav with
  | Some _ => withShowMenu false s
  | None => s
  end.
Proof.
  unfold handleCopy. unfold_monad. now destruct (clipboard nav).
Qed.

(** Up to its [await], [handleShare] writes no state. *)
Lemma handleShare_begin_state (p : Props) (nav : Navigator) (s : State) :
  state (handleShare p (unsettledNav nav) s) = s.
Proof.
  unfold handleShare, unsettledNav. cbn [share clipboard].
  destruct (share nav); [reflexivity|].
  destruct (clipboard nav); reflexivity.
Qed.

Lemma handleShare_resume_state (viaShare : bool) (r : Settlement) (s : State) :
  state (handleShare_resume viaShare r s) =
  match r with
  | Resolves => withShowMenu false s
  | _ => s
  end.
Proof.
  unfold handleShare_resume. unfold_monad.
  destruct r, viaShare; reflexivity.
Qed.

(** Up to its [await], [handleDelete] has set [isDeleting] and is suspended;
    without a callback it has done nothing and is not. *)
Lemma handleDelete_begin (p : Props) (flag : bool) (s : State) :
  handleDelete (unsettled p) flag s =
  match onDelete p with
  | Some _ => mkRun Suspended (withIsDeleting true s) [CallOnDelete (id p) flag]
  | None => mkRun (Normal tt) s []
  end.
Proof.
  unfold handleDelete, unsettled; simpl.
  now destruct (onDelete p).
Qed.

Lemma handleDelete_resume_state (r : Settlement) (s : State) :
  state (handleDelete_resume r s) =
  match r with
  | Resolves => withIsDeleting false (withShowMenu false (withShowDeleteOptions false s))
  | Rejects _ => withIsDeleting false s
  | Pending => s
  end.
Proof.
  unfold handleDelete_resume, handleDelete_catch. unfold_monad.
  destruct r as [|e|]; try reflexivity.
  cbv beta iota. now destruct (Js.getMessage e).
Qed.

Lemma handleClickOutside_state (messageRef menuRef : option Element) (target : Node) (s : State) :
  state (handleClickOutside messageRef menuRef target s) =
  if (showMenu s || showDeleteOptions s)
     && Js.truthyOptBool (option_map (fun el => negb (contains el target)) messageRef)
     && Js.truthyOptBool (option_map (fun el => negb (contains el target)) menuRef)
  then withShowDeleteOptions false (withShowMenu false s)
  else s.
Proof.
  unfold handleClickOutside. unfold_monad.
  destruct (showMenu s || showDeleteOptions s); simpl; [|reflexivity].
  destruct (Js.truthyOptBool (option_map _ messageRef)); simpl; [|reflexivity].
  now destruct (Js.truthyOptBool (option_map _ menuRef)).
Qed.

Lemma toggleAudio_state (audioRef : option unit) (s : State) :
  state (toggleAudio audioRef s) =
  match audioRef with
  | Some _ => withIsPlaying (negb (isPlaying s)) s
  | None => s
  end.
Proof.
  unfold toggleAudio. unfold_monad.
  destruct audioRef; [|reflexivity].
  now destruct (isPlaying s).
Qed.

(** The state after one event. *)
Lemma ui_step (p : Props) (w : World) (ev : Event) :
  ui (step p w ev) =
  match ev with
  | ClickMessage dom => state (handleMessageClick dom (ui w))
  | ClickCopy nav => state (handleCopy p nav (ui w))
  | ClickShare _ => ui w
  | ShareSettled i =>
      match nth_error (awaitingShare w) i with
      | Some (_, Resolves) => withShowMenu false (ui w)
      | _ => ui w
      end
  | ClickElimina => withShowMenu false (withShowDeleteOptions true (ui w))
  | ClickDelete _ =>
      match onDelete p with
      | Some _ => withIsDeleting true (ui w)
      | None => ui w
      end
  | DeleteSettled i =>
      match nth_error (awaitingDelete w) i with
      | Some r => state (handleDelete_resume r (ui w))
      | None => ui w
      end
  | DocumentClick dom target =>
      state (handleClickOutside (messageEl dom) (menuRef_current p (ui w) dom) target (ui w))
  | MediaLoaded => withIsMediaLoading false (ui w)
  | ClickToggleAudio => state (toggleAudio (audioRef_current p (ui w)) (ui w))
  | AudioEnded => withIsPlaying false (ui w)
  | ClickExpand => withShowFullImage true (ui w)
  end.
Proof.
  destruct ev; try reflexivity.
  - (* ClickShare *)
    cbn [step].
    destruct (isSuspended _), (sharePromise p nav); cbn [setAwaitingShare commit ui];
      apply handleShare_begin_state.
  - (* ShareSettled *)
    cbn [step].
    destruct (nth_error (awaitingShare w) i) as [[via [|e|]]|]; cbn [setAwaitingShare commit ui];
      try reflexivity; now rewrite handleShare_resume_state.
  - (* ClickDelete *)
    cbn [step]. rewrite handleDelete_begin.
    destruct (onDelete p); reflexivity.
  - (* DeleteSettled *)
    cbn [step].
    destruct (nth_error (awaitingDelete w) i) as [[|e|]|]; try reflexivity.
  - (* DocumentClick *)
    cbn [step]. unfold clickListenerRegistered.
    destruct (showMenu (ui w) || showDeleteOptions (ui w)) eqn:Hopen;
      cbn [commit ui]; [reflexivity|].
    rewrite handleClickOutside_state, Hopen. reflexivity.
Qed.

(** *** Media loading *)

(** One event either leaves [isMediaLoading] alone or is the load event, which
    clears it. *)
Lemma step_isMediaLoading (p : Props) (w : World) (ev : Event) :
  isMediaLoading (ui (step p w ev)) = isMediaLoading (ui w)
  \/ (ev = MediaLoaded /\ isMediaLoading (ui (step p w ev)) = false).
Proof.
  rewrite ui_step.
  destruct ev; try (left; reflexivity).
  - left. rewrite handleMessageClick_state, calculateMenuPosition_state.
    destruct (showDeleteOptions (ui w)); [reflexivity|].
    now destruct (messageEl dom).
  - left. rewrite handleCopy_state. now destruct (clipboard nav).
  - left. now destruct (nth_error (awaitingShare w) i) as [[via [|e|]]|].
  - left. now destruct (onDelete p).
  - left. destruct (nth_error (awaitingDelete w) i) as [r|]; [|reflexivity].
    rewrite handleDelete_resume_state. now destruct r.
  - left. rewrite handleClickOutside_state.
    now destruct (_ && _ && _).
  - right. now split.
  - left. rewrite toggleAudio_state. now destruct (audioRef_current p (ui w)).
Qed.

Lemma run_keeps_media_loaded (p : Props) (evs : list Event) :
  forall w : World,
    isMediaLoading (ui w) = false ->
    isMediaLoading (ui (run p w evs)) = false.
Proof.
  unfold run.
  induction evs as [|ev evs IH]; intros w Hw; [exact Hw|].
  simpl. apply IH.
  destruct (step_isMediaLoading p w ev) as [Hsame|[_ Hoff]]; congruence.
Qed.

(** C7. [isMediaLoading] starts true; a photo binds [onLoad], a video and an
    audio bind [onLoadedData], to the handler that sets it to false, and each
    of them shows its loading indicator exactly while it is true; no event
    changes [isMediaLoading] in any other way, so after the load event it is
    false whatever follows. *)
Theorem media_loading_ends_once :
  forall (p : Props) (w : World) (ev : Event) (evs : list Event),
    isMediaLoading initialState = true
    /\ match mediaType p, Js.truthyOptStr (mediaUrl p) with
       | Some photo, true =>
           renderMedia p (ui w) =
           Some {| kind := photo; onLoad := Some OnMediaLoad; onLoadedData := None;
                   loadingIndicator := isMediaLoading (ui w) |}
       | Some video, true =>
           renderMedia p (ui w) =
           Some {| kind := video; onLoad := None; onLoadedData := Some OnMediaLoad;
                   loadingIndicator := isMediaLoading (ui w) |}
       | Some audio, true =>
           renderMedia p (ui w) =
           Some {| kind := audio; onLoad := None; onLoadedData := Some OnMediaLoad;
                   loadingIndicator := isMediaLoading (ui w) |}
       | Some document, true =>
           renderMedia p (ui w) =
           Some {| kind := document; onLoad := None; onLoadedData := None;
                   loadingIndicator := false |}
       | _, _ => renderMedia p (ui w) = None
       end
    /\ ui (step p w MediaLoaded) = state (handleMediaLoad (ui w))
    /\ isMediaLoading (state (handleMediaLoad (ui w))) = false
    /\ (isMediaLoading (ui (step p w ev)) = isMediaLoading (ui w)
        \/ (ev = MediaLoaded /\ isMediaLoading (ui (step p w ev)) = false))
    /\ isMediaLoading (ui (run p (step p w MediaLoaded) evs)) = false.
Proof.
  intros p w ev evs.
  split; [reflexivity|].
  split.
  { unfold renderMedia.
    destruct (mediaType p) as [[| | |]|], (Js.truthyOptStr (mediaUrl p)); reflexivity. }
  split; [reflexivity|].
  split; [reflexivity|].
  split; [apply step_isMediaLoading|].
  now apply run_keeps_media_loaded.
Qed.

(** *** Clicking outside *)

(** While the popup menu is rendered, a click outside the message and outside
    the menu closes it. *)
Lemma handleClickOutside_closes_menu (p : Props) (s : State) (dom : Dom) el target bs :
  menu (render p s) = Some bs ->
  messageEl dom = Some el ->
  contains el target = false ->
  contains (menuEl dom) target = false ->
  state (handleClickOutside (messageEl dom) (menuRef_current p s dom) target s)
  = withShowDeleteOptions false (withShowMenu false s).
Proof.
  intros Hmenu Hel Hout Hout'.
  rewrite handleClickOutside_state.
  unfold menuRef_current. rewrite Hmenu, Hel. simpl. rewrite Hout, Hout'. simpl.
  rewrite render_menu in Hmenu. unfold renderMenu in Hmenu.
  destruct (showMenu s); [reflexivity|discriminate Hmenu].
Qed.

(** A click inside the message or inside the menu changes nothing. *)
Lemma handleClickOutside_inside (p : Props) (s : State) (dom : Dom) el target :
  messageEl dom = Some el ->
  contains el target || contains (menuEl dom) target = true ->
  state (handleClickOutside (messageEl dom) (menuRef_current p s dom) target s) = s.
Proof.
  intros Hel Hin.
  rewrite handleClickOutside_state, Hel.
  unfold menuRef_current.
  destruct (showMenu s || showDeleteOptions s); [|reflexivity].
  cbn [option_map Js.truthyOptBool andb].
  destruct (contains el target) eqn:Hmsg; simpl; [reflexivity|].
  simpl in Hin.
  destruct (menu (render p s)); simpl; [now rewrite Hin|reflexivity].
Qed.

(** While the delete-options menu is open the popup menu is not rendered, so
    [menuRef] is null and no click closes anything. *)
Lemma handleClickOutside_delete_options (p : Props) (s : State) (dom : Dom) target :
  showDeleteOptions s = true ->
  state (handleClickOutside (messageEl dom) (menuRef_current p s dom) target s) = s.
Proof.
  intros Hopen.
  rewrite handleClickOutside_state.
  unfold menuRef_current. rewrite render_menu. unfold renderMenu.
  rewrite Hopen, andb_false_r. simpl.
  now rewrite andb_false_r.
Qed.

(** C5, at a click outside the message while the delete-options menu is open
    (the bubble was clicked, then [Elimina]): node 99 is in neither element,
    the listener runs, and the menu stays open. *)
Theorem click_outside_leaves_delete_options_open :
  let p := sampleProps None in
  let opened := [ClickMessage sampleDom; ClickElimina] in
  contains sampleMessageEl 99 = false
  /\ contains sampleMenuEl 99 = false
  /\ option_map (fun w => (showMenu (ui w), showDeleteOptions (ui w)))
                (exec p initialWorld opened) = Some (false, true)
  /\ option_map (fun w => (showMenu (ui w), showDeleteOptions (ui w)))
                (exec p initialWorld (opened ++ [DocumentClick sampleDom 99]))
     = Some (false, true).
Proof.
  cbv zeta. repeat split; vm_compute; reflexivity.
Qed.

(** *** The two menus exclude each other *)

Lemma step_exclusive (p : Props) (w : World) (ev : Event) :
  exclusive (ui w) = true ->
  exclusive (ui (step p w ev)) = true.
Proof.
  rewrite ui_step. unfold exclusive.
  destruct ev.
  - (* handleMessageClick *)
    rewrite handleMessageClick_state, calculateMenuPosition_state.
    destruct (showDeleteOptions (ui w)) eqn:Hopt; [now rewrite Hopt|].
    intros _. destruct (messageEl dom); simpl; rewrite Hopt;
      destruct (showMenu (ui w)); reflexivity.
  - (* handleCopy *)
    rewrite handleCopy_state. now destruct (clipboard nav).
  - (* handleShare, up to its await *)
    auto.
  - (* handleShare, after its await *)
    now destruct (nth_error (awaitingShare w) i) as [[via [|e|]]|].
  - (* Elimina *)
    reflexivity.
  - (* handleDelete, up to its await *)
    now destruct (onDelete p).
  - (* handleDelete, after its await *)
    destruct (nth_error (awaitingDelete w) i) as [r|]; [|auto].
    rewrite handleDelete_resume_state. now destruct r.
  - (* handleClickOutside *)
    rewrite handleClickOutside_state.
    now destruct (_ && _ && _).
  - auto.
  - rewrite toggleAudio_state. now destruct (audioRef_current p (ui w)).
  - auto.
  - auto.
Qed.

(** C9. [showMenu] and [showDeleteOptions] are not both true at the start,
    and no sequence of events (clicks on the bubble and on the buttons of the
    two menus, settlements of the awaited promises, clicks on the document,
    media events) run from a state where they are not both true leads to one
    where they are. *)
Theorem menus_never_both_open :
  forall (p : Props) (w : World) (evs : list Event),
    exclusive (ui w) = true ->
    exclusive (ui initialWorld) = true
    /\ exclusive (ui (run p initialWorld evs)) = true
    /\ exclusive (ui (run p w evs)) = true.
Proof.
  intros p w evs Hw.
  assert (Hrun : forall w0, exclusive (ui w0) = true ->
                            exclusive (ui (run p w0 evs)) = true).
  { unfold run. induction evs as [|ev evs IH]; intros w0 H0; [exact H0|].
    simpl. apply IH. now apply step_exclusive. }
  split; [reflexivity|].
  split; apply Hrun; [reflexivity|exact Hw].
Qed.

Lemma menus_never_both_open_witness :
  exclusive
    (ui (run (sampleProps (Some (fun _ _ => Rejects Js.Null)))
             {| ui := deleteOptionsOpen; awaitingDelete := []; awaitingShare := []; log := [] |}
             [ClickMessage sampleDom; ClickDelete false; DeleteSettled 0;
              DocumentClick sampleDom 99; ClickMessage sampleDom])) = true.
Proof.
  exact (proj2 (proj2 (menus_never_both_open
           (sampleProps (Some (fun _ _ => Rejects Js.Null)))
           {| ui := deleteOptionsOpen; awaitingDelete := []; awaitingShare := []; log := [] |}
           [ClickMessage sampleDom; ClickDelete false; DeleteSettled 0;
            DocumentClick sampleDom 99; ClickMessage sampleDom]
           eq_refl))).
Defined.

(** *** Deleting *)

Lemma step_isDeleting (p : Props) (w : World) (ev : Event) :
  isDeleting (ui (step p w ev)) =
  match ev with
  | ClickDelete _ =>
      match onDelete p with
      | Some _ => true
      | None => isDeleting (ui w)
      end
  | DeleteSettled i =>
      match nth_error (awaitingDelete w) i with
      | Some Resolves | Some (Rejects _) => false
      | _ => isDeleting (ui w)
      end
  | _ => isDeleting (ui w)
  end.
Proof.
  rewrite ui_step.
  destruct ev; try reflexivity.
  - rewrite handleMessageClick_state, calculateMenuPosition_state.
    destruct (showDeleteOptions (ui w)); [reflexivity|].
    now destruct (messageEl dom).
  - rewrite handleCopy_state. now destruct (clipboard nav).
  - now destruct (nth_error (awaitingShare w) i) as [[via [|e|]]|].
  - now destruct (onDelete p).
  - destruct (nth_error (awaitingDelete w) i) as [r|]; [|reflexivity].
    rewrite handleDelete_resume_state. now destruct r.
  - rewrite handleClickOutside_state. now destruct (_ && _ && _).
  - rewrite toggleAudio_state. now destruct (audioRef_current p (ui w)).
Qed.

Lemma step_awaitingDelete (p : Props) (w : World) (ev : Event) :
  awaitingDelete (step p w ev) =
  match ev with
  | ClickDelete b =>
      match onDelete p with
      | Some cb => awaitingDelete w ++ [cb (id p) b]
      | None => awaitingDelete w
      end
  | DeleteSettled i =>
      match nth_error (awaitingDelete w) i with
      | Some Resolves | Some (Rejects _) => removeNth i (awaitingDelete w)
      | _ => awaitingDelete w
      end
  | _ => awaitingDelete w
  end.
Proof.
  destruct ev; try reflexivity.
  - cbn [step]. now destruct (isSuspended _), (sharePromise p nav).
  - cbn [step]. now destruct (nth_error (awaitingShare w) i) as [[via [|e|]]|].
  - cbn [step]. rewrite handleDelete_begin. now destruct (onDelete p).
  - cbn [step]. now destruct (nth_error (awaitingDelete w) i) as [[|e|]|].
  - cbn [step]. now destruct (clickListenerRegistered (ui w)).
Qed.

Lemma renderDeleteOptions_disabled (p : Props) (s : State) :
  disabledFollowsIsDeleting s (deleteOptions (render p s)).
Proof.
  rewrite render_deleteOptions. unfold renderDeleteOptions, disabledFollowsIsDeleting.
  destruct (showDeleteOptions s); [|exact I].
  destruct (Js.truthyOptBool (canDeleteForEveryone p)); simpl; repeat constructor.
Qed.

(** A delete button can be clicked only while it is rendered and
    [isDeleting] is false. *)
Lemma clickable_delete (p : Props) (s : State) (b : bool) :
  clickable (OnDelete b) (deleteOptions (render p s)) =
  negb (isDeleting s) && hasButton (OnDelete b) (deleteOptions (render p s)).
Proof.
  rewrite render_deleteOptions. unfold renderDeleteOptions.
  destruct (showDeleteOptions s); [|now rewrite andb_false_r].
  destruct (Js.truthyOptBool (canDeleteForEveryone p)), (isDeleting s), b; reflexivity.
Qed.

Lemma step_deletingWhileAwaiting (p : Props) (w : World) (ev : Event) :
  deletingWhileAwaiting w ->
  enabled p w ev = true ->
  deletingWhileAwaiting (step p w ev).
Proof.
  unfold deletingWhileAwaiting, deletionsInFlight.
  intros Hinv Hen.
  rewrite step_isDeleting, step_awaitingDelete.
  destruct ev; try exact Hinv.
  - (* a delete button is clicked: nothing is awaited yet *)
    cbn [enabled] in Hen. rewrite clickable_delete in Hen.
    apply andb_true_iff in Hen as [Hidle _].
    apply negb_true_iff in Hidle.
    destruct Hinv as [[Hdel _]|[_ Hnone]]; [congruence|].
    destruct (onDelete p) as [cb|]; [|right; auto].
    left. split; [reflexivity|].
    rewrite length_app, Hnone. reflexivity.
  - (* the awaited call settles *)
    cbn [enabled] in Hen.
    destruct (nth_error (awaitingDelete w) i) as [r|] eqn:Hnth; [|discriminate Hen].
    destruct Hinv as [[_ Hone]|[_ Hnone]].
    + destruct (awaitingDelete w) as [|r0 [|r1 rest]]; try discriminate Hone.
      destruct i as [|i]; [|destruct i; discriminate Hnth].
      destruct r; try discriminate Hen; right; split; reflexivity.
    + destruct (awaitingDelete w); [|discriminate Hnone].
      destruct i; discriminate Hnth.
Qed.

Lemma exec_deletingWhileAwaiting (p : Props) (evs : list Event) :
  forall w w' : World,
    deletingWhileAwaiting w ->
    exec p w evs = Some w' ->
    deletingWhileAwaiting w'.
Proof.
  induction evs as [|ev evs IH]; intros w w' Hinv Hexec; simpl in Hexec.
  - now injection Hexec as <-.
  - destruct (enabled p w ev) eqn:Hen; [|discriminate Hexec].
    apply (IH (step p w ev)); [|exact Hexec].
    now apply step_deletingWhileAwaiting.
Qed.

(** C4. Every button of the delete-options menu carries
    [disabled = isDeleting], so a delete button can be clicked only while
    [isDeleting] is false. In every state the page can reach, [isDeleting] is
    true exactly while a call of [onDelete] is awaited, and at most one is;
    when the promise settles, fulfilled or rejected, [isDeleting] is set back
    to false. *)
Theorem delete_buttons_disabled_while_awaiting :
  forall (p : Props) (evs : list Event) (w : World),
    exec p initialWorld evs = Some w ->
    (forall s : State, disabledFollowsIsDeleting s (deleteOptions (render p s)))
    /\ (forall b : bool,
          enabled p w (ClickDelete b) =
          negb (isDeleting (ui w))
          && hasButton (OnDelete b) (deleteOptions (render p (ui w))))
    /\ deletingWhileAwaiting w
    /\ (forall (s : State) (e : Js.value) (flag : bool),
          isDeleting (state (handleDelete (unsettled p) flag s))
          = match onDelete p with Some _ => true | None => isDeleting s end
          /\ isDeleting (state (handleDelete_resume Resolves s)) = false
          /\ isDeleting (state (handleDelete_resume (Rejects e) s)) = false).
Proof.
  intros p evs w Hexec.
  split; [apply renderDeleteOptions_disabled|].
  split; [intros b; apply clickable_delete|].
  split.
  - apply (exec_deletingWhileAwaiting p evs initialWorld w); [|exact Hexec].
    right. split; reflexivity.
  - intros s e flag. rewrite handleDelete_begin, !handleDelete_resume_state.
    destruct (onDelete p); repeat split.
Qed.

Lemma delete_buttons_disabled_while_awaiting_witness :
  deletingWhileAwaiting
    (run (sampleProps (Some (fun _ _ => Pending))) initialWorld
         [ClickMessage sampleDom; ClickElimina; ClickDelete false;
          DocumentClick sampleDom 99]).
Proof.
  exact (proj1 (proj2 (proj2
           (delete_buttons_disabled_while_awaiting
              (sampleProps (Some (fun _ _ => Pending)))
              [ClickMessage sampleDom; ClickElimina; ClickDelete false;
               DocumentClick sampleDom 99]
              _ eq_refl)))).
Defined.

Example awaiting_example :
  let w := run (sampleProps (Some (fun _ _ => Pending))) initialWorld
               [ClickMessage sampleDom; ClickElimina; ClickDelete false] in
  isDeleting (ui w) = true
  /\ deletionsInFlight w = 1
  /\ enabled (sampleProps (Some (fun _ _ => Pending))) w (ClickDelete false) = false
  /\ log w = [CallOnDelete "m1" false].
Proof. cbv zeta. repeat split; vm_compute; reflexivity. Qed.

(** *** The handlers in one piece and in two *)

(** Running [handleDelete] with a promise that settles as [r] is running it
    up to the [await] and then running what is left with [r]. *)
Lemma handleDelete_resumes (p : Props) (flag : bool) (s : State) cb :
  onDelete p = Some cb ->
  let b := handleDelete (unsettled p) flag s in
  let k := handleDelete_resume (cb (id p) flag) (state b) in
  handleDelete p flag s = mkRun (completion k) (state k) (effects b ++ effects k).
Proof.
  intros H b k. subst b k.
  rewrite handleDelete_begin, H. cbn [state effects].
  destruct (cb (id p) flag) as [|e|] eqn:Hcb.
  - now rewrite (handleDelete_fulfilled p flag s cb H Hcb).
  - destruct (Js.getMessage e) as [m|t] eqn:Hm.
    + rewrite (handleDelete_rejected p flag s cb e m H Hcb Hm).
      unfold handleDelete_resume, handleDelete_catch. unfold_monad.
      cbv beta iota. now rewrite Hm.
    + rewrite (handleDelete_rejected_unreadable p flag s cb e t H Hcb Hm).
      unfold handleDelete_resume, handleDelete_catch. unfold_monad.
      cbv beta iota. now rewrite Hm.
  - now rewrite (handleDelete_pending p flag s cb H Hcb).
Qed.

(** The same for [handleShare]. *)
Lemma handleShare_resumes (p : Props) (nav : Navigator) (s : State) via r :
  sharePromise p nav = Some (via, r) ->
  let b := handleShare p (unsettledNav nav) s in
  let k := handleShare_resume via r (state b) in
  handleShare p nav s = mkRun (completion k) (state k) (effects b ++ effects k).
Proof.
  intros H b k. subst b k. rewrite handleShare_begin_state.
  unfold sharePromise in H.
  unfold handleShare, handleShare_resume, unsettledNav, clipboardWriteText.
  cbn [share clipboard].
  destruct (share nav) as [sh|].
  - injection H as <- <-. unfold_monad. cbn [option_map].
    destruct (sh (shareData p)); reflexivity.
  - destruct (clipboard nav) as [wt|]; [|discriminate H].
    injection H as <- <-. unfold_monad. cbn [option_map].
    destruct (wt (text p)); reflexivity.
Qed.

(** *** Which rejections the [catch] block can read *)

Lemma getMessage_readable (e : Js.value) :
  match e with
  | Js.Undefined | Js.Null =>
      match Js.getMessage e with
      | inr t => Js.isTypeError t = true
      | inl _ => False
      end
  | _ =>
      match Js.getMessage e with
      | inl _ => True
      | inr _ => False
      end
  end.
Proof.
  destruct e as [| | b | f | str | props]; simpl; try reflexivity; try exact I.
  now destruct (Js.lookup "message" props).
Qed.

(** An [Error] with a message is shown with that message; one without
    ([new Error()], whose message is the empty string), a plain string and an
    object without [message] are shown with the fallback text. *)
Example handleDelete_alerts :
  let run e := alertsOf (handleDelete (sampleProps (Some (fun _ _ => Rejects e)))
                                      true deleteOptionsOpen) in
  run (Js.Object [("message", Js.Str "permesso negato")])
    = [Alert (Js.Str "permesso negato")]
  /\ run (Js.Object [("message", Js.Str "")]) = [Alert (Js.Str fallbackText)]
  /\ run (Js.Str "boom") = [Alert (Js.Str fallbackText)]
  /\ run (Js.Object []) = [Alert (Js.Str fallbackText)]
  /\ run Js.Null = [].
Proof. cbv zeta. repeat split; vm_compute; reflexivity. Qed.

(* ------------------------------------------------------------------ *)
(** *** Sharing and copying *)

(** What [handleShare] does, branch by branch. *)
Lemma handleShare_run (p : Props) (nav : Navigator) (s : State) :
  handleShare p nav s =
  match share nav with
  | Some sh =>
      match sh (shareData p) with
      | Resolves =>
          mkRun (Normal tt) (withShowMenu false s) [NavigatorShare (shareData p)]
      | Rejects e =>
          mkRun (Normal tt) s
                [NavigatorShare (shareData p);
                 ConsoleError "Errore durante la condivisione:" e]
      | Pending => mkRun Suspended s [NavigatorShare (shareData p)]
      end
  | None =>
      match clipboard nav with
      | Some writeText =>
          match writeText (text p) with
          | Resolves =>
              mkRun (Normal tt) (withShowMenu false s)
                    [ClipboardWriteText (text p);
                     Alert (Js.Str "Messaggio copiato negli appunti!")]
          | Rejects e =>
              mkRun (Normal tt) s
                    [ClipboardWriteText (text p);
                     ConsoleError "Errore durante la condivisione:" e]
          | Pending => mkRun Suspended s [ClipboardWriteText (text p)]
          end
      | None =>
          mkRun (Normal tt) s
                [ConsoleError "Errore durante la condivisione:"
                   (Js.typeError "Cannot read properties of undefined (reading 'writeText')")]
      end
  end.
Proof.
  unfold handleShare, clipboardWriteText, navigatorShare.
  destruct (share nav) as [sh|].
  - unfold_monad. now destruct (sh (shareData p)).
  - destruct (clipboard nav) as [wt|]; [|reflexivity].
    unfold_monad. now destruct (wt (text p)).
Qed.

(** X1. [handleShare] never completes by a throw, whatever [navigator]
    offers and however the awaited promise settles: a failure is logged with
    [console.error] and swallowed. The only state it may write is
    [showMenu := false]. *)
Theorem handleShare_never_throws :
  forall (p : Props) (nav : Navigator) (s : State),
    let r := handleShare p nav s in
    match completion r with
    | Throw _ => False
    | _ => True
    end
    /\ (state r = s \/ state r = withShowMenu false s).
Proof.
  intros p nav s r. subst r. rewrite handleShare_run.
  destruct (share nav) as [sh|].
  - destruct (sh (shareData p)); simpl; auto.
  - destruct (clipboard nav) as [wt|]; [|simpl; auto].
    destruct (wt (text p)); simpl; auto.
Qed.

(** X2. [handleShare] closes the popup menu exactly when the promise it
    awaited was fulfilled; the alert that the message was copied appears
    exactly when that promise was the clipboard write of the fallback branch;
    and exactly the failures (a rejection, or a navigator with neither
    [share] nor [clipboard]) leave one [console.error]. *)
Theorem handleShare_success_only :
  forall (p : Props) (nav : Navigator) (s : State),
    let r := handleShare p nav s in
    state r = match sharePromise p nav with
              | Some (_, Resolves) => withShowMenu false s
              | _ => s
              end
    /\ alertsOf r = match sharePromise p nav with
                    | Some (false, Resolves) =>
                        [Alert (Js.Str "Messaggio copiato negli appunti!")]
                    | _ => []
                    end
    /\ List.length (filter isConsoleError (effects r))
       = match sharePromise p nav with
         | Some (_, Rejects _) | None => 1
         | _ => 0
         end.
Proof.
  intros p nav s r. subst r. rewrite handleShare_run. unfold sharePromise, alertsOf.
  destruct (share nav) as [sh|].
  - destruct (sh (shareData p)); simpl; auto.
  - destruct (clipboard nav) as [wt|]; [|simpl; auto].
    destruct (wt (text p)); simpl; auto.
Qed.

(** X3. With [navigator.share] present [handleShare] shares the text, the
    title with the sender's name and, only when it is non-empty, the media
    URL, and touches neither the clipboard nor [alert]; without it, it never
    calls [navigator.share]. *)
Theorem handleShare_prefers_share :
  forall (p : Props) (nav : Navigator) (s : State),
    let r := handleShare p nav s in
    match share nav with
    | Some _ =>
        hd_error (effects r)
        = Some (NavigatorShare
                  {| sd_text := text p;
                     sd_title := "Messaggio da " ++ senderName p;
                     sd_url := match mediaUrl p with
                               | Some "" | None => None
                               | Some u => Some u
                               end |})
        /\ forallb (fun e => match e with
                             | ClipboardWriteText _ | Alert _ => false
                             | _ => true
                             end) (effects r) = true
    | None =>
        forallb (fun e => match e with NavigatorShare _ => false | _ => true end)
                (effects r) = true
    end.
Proof.
  intros p nav s r. subst r. rewrite handleShare_run.
  destruct (share nav) as [sh|].
  - assert (Hd : shareData p =
                 {| sd_text := text p;
                    sd_title := "Messaggio da " ++ senderName p;
                    sd_url := match mediaUrl p with
                              | Some "" | None => None
                              | Some u => Some u
                              end |}).
    { unfold shareData. f_equal.
      destruct (mediaUrl p) as [[|c u]|]; reflexivity. }
    rewrite <- Hd.
    destruct (sh (shareData p)); split; reflexivity.
  - destruct (clipboard nav) as [wt|]; [|reflexivity].
    destruct (wt (text p)); reflexivity.
Qed.

(** X4. [handleCopy] writes the text of the message to the clipboard and
    closes the popup menu without waiting for the write, so also when the
    write is rejected; where [navigator.clipboard] is missing it throws a
    [TypeError] before it has closed anything. *)
Theorem handleCopy_does_not_wait :
  forall (p : Props) (nav : Navigator) (s : State),
    let r := handleCopy p nav s in
    match clipboard nav with
    | Some _ =>
        completion r = Normal tt
        /\ effects r = [ClipboardWriteText (text p)]
        /\ state r = withShowMenu false s
    | None =>
        match completion r with
        | Throw e => Js.isTypeError e = true
        | _ => False
        end
        /\ effects r = []
        /\ state r = s
    end.
Proof.
  intros p nav s r. subst r. unfold handleCopy, clipboardWriteText.
  destruct (clipboard nav) as [wt|]; repeat split.
Qed.

(** *** Clicking the bubble *)

(** X5. A click on the bubble does nothing while the delete-options menu is
    open; otherwise it toggles [showMenu] and leaves [showDeleteOptions]
    alone, and a second click on the same page undoes the first: what is left
    is the position computed for the menu. *)
Theorem handleMessageClick_toggles :
  forall (dom : Dom) (s : State),
    let r := handleMessageClick dom s in
    completion r = Normal tt
    /\ effects r = []
    /\ showDeleteOptions (state r) = showDeleteOptions s
    /\ if showDeleteOptions s then state r = s
       else showMenu (state r) = negb (showMenu s)
            /\ state (handleMessageClick dom (state r))
               = state (calculateMenuPosition dom s).
Proof.
  intros dom s r. subst r.
  rewrite !handleMessageClick_state, !calculateMenuPosition_state.
  unfold handleMessageClick, calculateMenuPosition. unfold_monad.
  destruct s as [sm ip idl sdo iml sfi mp]; cbn [showDeleteOptions showMenu].
  destruct sdo; cbn.
  - repeat split.
  - destruct (messageEl dom) as [el|]; cbn; destruct sm; repeat split.
Qed.

(** *** The voice message *)

(** X6. [toggleAudio] always stops the click from reaching the bubble. With
    the [audio] element mounted it sends [pause] when [isPlaying] and [play]
    otherwise and flips [isPlaying], so two clicks send one of each and give
    the state back; with the ref null it does nothing else. *)
Theorem toggleAudio_twice :
  forall (audioRef : option unit) (s : State),
    let r1 := toggleAudio audioRef s in
    let r2 := toggleAudio audioRef (state r1) in
    hd_error (effects r1) = Some StopPropagation
    /\ match audioRef with
       | Some _ =>
           isPlaying (state r1) = negb (isPlaying s)
           /\ effects r1 ++ effects r2
              = (if isPlaying s
                 then [StopPropagation; AudioPause; StopPropagation; AudioPlay]
                 else [StopPropagation; AudioPlay; StopPropagation; AudioPause])
           /\ state r2 = s
       | None => effects r1 = [StopPropagation] /\ state r1 = s
       end.
Proof.
  intros audioRef s r1 r2. subst r1 r2.
  unfold toggleAudio. unfold_monad.
  destruct audioRef as [u|]; [|repeat split].
  destruct s as [sm ip idl sdo iml sfi mp]; cbn.
  destruct ip; repeat split.
Qed.

(** *** What [handleDelete] shows and logs *)

(** X7. [handleDelete] shows at most one alert and never an empty one: the
    argument of [alert] is truthy, whatever the callback rejects with. It
    alerts and logs nothing unless the promise was rejected, and then
    [console.error] has received the very reason of the rejection. *)
Theorem handleDelete_alert_is_never_empty :
  forall (p : Props) (flag : bool) (s : State),
    let r := handleDelete p flag s in
    forallb alertShowsText (effects r) = true
    /\ List.length (alertsOf r) <= 1
    /\ match onDelete p with
       | Some cb =>
           match cb (id p) flag with
           | Rejects e =>
               filter isConsoleError (effects r)
               = [ConsoleError "Error deleting message:" e]
           | _ => effects r = [CallOnDelete (id p) flag]
           end
       | None => effects r = []
       end.
Proof.
  intros p flag s r. subst r.
  destruct (onDelete p) as [cb|] eqn:H.
  - destruct (cb (id p) flag) as [|e|] eqn:Hcb.
    + rewrite (handleDelete_fulfilled p flag s cb H Hcb). cbn. auto.
    + destruct (Js.getMessage e) as [m|t] eqn:Hm.
      * rewrite (handleDelete_rejected p flag s cb e m H Hcb Hm). cbn.
        split; [|auto].
        unfold Js.or. destruct (Js.truthy m) eqn:Hm'; [now rewrite Hm'|reflexivity].
      * rewrite (handleDelete_rejected_unreadable p flag s cb e t H Hcb Hm). cbn. auto.
    + rewrite (handleDelete_pending p flag s cb H Hcb). cbn. auto.
  - rewrite (handleDelete_without_callback p flag s H). cbn. auto.
Qed.

(** *** The two menus on the page *)

(** X8. In no state at all are the popup menu and the delete-options menu
    rendered together, and the bubble is highlighted whenever one of them
    is. *)
Theorem menus_never_rendered_together :
  forall (p : Props) (s : State),
    (menu (render p s) = None \/ deleteOptions (render p s) = None)
    /\ match menu (render p s), deleteOptions (render p s) with
       | None, None => True
       | _, _ => bubbleHighlighted s = true
       end.
Proof.
  intros p s. rewrite render_menu, render_deleteOptions.
  unfold renderMenu, renderDeleteOptions, bubbleHighlighted.
  destruct (showMenu s), (showDeleteOptions s); cbn; auto.
  destruct (Js.truthyStr (text p) || Js.truthyOptStr (mediaUrl p)); auto.
Qed.

(** X9. While the popup menu is rendered and the message element is
    attached, the document's click listener closes the menu exactly when the
    target of the click is inside neither the message nor the menu, and
    changes nothing otherwise. *)
Theorem handleClickOutside_popup_menu :
  forall (p : Props) (s : State) (dom : Dom) (el : Element) (target : Node)
         (bs : list Button),
    menu (render p s) = Some bs ->
    messageEl dom = Some el ->
    state (handleClickOutside (messageEl dom) (menuRef_current p s dom) target s)
    = if contains el target || contains (menuEl dom) target then s
      else withShowDeleteOptions false (withShowMenu false s).
Proof.
  intros p s dom el target bs Hmenu Hel.
  destruct (contains el target || contains (menuEl dom) target) eqn:Hin.
  - now apply handleClickOutside_inside with (el := el).
  - apply orb_false_iff in Hin as [Hmsg Hmn].
    now apply handleClickOutside_closes_menu with (el := el) (bs := bs).
Qed.

Lemma handleClickOutside_popup_menu_witness :
  state (handleClickOutside (messageEl sampleDom)
           (menuRef_current (sampleProps None) (withShowMenu true initialState) sampleDom)
           99 (withShowMenu true initialState))
  = withShowDeleteOptions false (withShowMenu false (withShowMenu true initialState)).
Proof.
  exact (handleClickOutside_popup_menu (sampleProps None) (withShowMenu true initialState)
           sampleDom sampleMessageEl 99 _ eq_refl eq_refl).
Defined.

(** *** The delivery ticks *)

(** X10. [renderDeliveryStatus] draws ticks only on a sent message; they are
    marked read as soon as someone has read it, whoever it was delivered to,
    delivered when nobody has read it and it reached someone, and carry no
    mark otherwise. *)
Theorem renderDeliveryStatus_read_first :
  forall p : Props,
    (renderDeliveryStatus p = None <-> isMe p = false)
    /\ (renderDeliveryStatus p = Some "double-tick tick-read"
        <-> isMe p = true /\ readBy p <> [])
    /\ (renderDeliveryStatus p = Some "double-tick tick-delivered"
        <-> isMe p = true /\ readBy p = [] /\ deliveredTo p <> [])
    /\ (renderDeliveryStatus p = Some "double-tick "
        <-> isMe p = true /\ readBy p = [] /\ deliveredTo p = []).
Proof.
  intros p. unfold renderDeliveryStatus.
  destruct (isMe p), (readBy p) as [|r rs], (deliveredTo p) as [|d ds]; cbn;
    repeat split; intros; try discriminate; try reflexivity; try congruence;
    try (repeat match goal with H : _ /\ _ |- _ => destruct H end; congruence).
Qed.

(** *** What the component has done so far *)

Lemma lastAudioCommand_app (l l' : list Effect) :
  lastAudioCommand (l ++ l') =
  match lastAudioCommand l' with
  | Some c => Some c
  | None => lastAudioCommand l
  end.
Proof.
  induction l as [|e l IH]; simpl.
  - now destruct (lastAudioCommand l').
  - rewrite IH. now destruct (lastAudioCommand l').
Qed.

Lemma handleDelete_resume_quiet (r : Settlement) (s : State) :
  quiet (effects (handleDelete_resume r s)).
Proof.
  unfold handleDelete_resume, handleDelete_catch. unfold_monad.
  destruct r as [|e|]; try (split; reflexivity).
  cbv beta iota. destruct (Js.getMessage e); split; reflexivity.
Qed.

Lemma handleShare_begin_quiet (p : Props) (nav : Navigator) (s : State) :
  quiet (effects (handleShare p (unsettledNav nav) s)).
Proof.
  rewrite handleShare_run. unfold unsettledNav. cbn [share clipboard].
  destruct (share nav); [split; reflexivity|].
  destruct (clipboard nav); split; reflexivity.
Qed.

Lemma handleShare_resume_quiet (via : bool) (r : Settlement) (s : State) :
  quiet (effects (handleShare_resume via r s)).
Proof.
  unfold handleShare_resume. unfold_monad.
  destruct r, via; split; reflexivity.
Qed.

Lemma handleMessageClick_effects (dom : Dom) (s : State) :
  effects (handleMessageClick dom s) = [].
Proof.
  unfold handleMessageClick, calculateMenuPosition. unfold_monad.
  destruct (showDeleteOptions s); [reflexivity|].
  now destruct (messageEl dom).
Qed.

Lemma handleClickOutside_effects (messageRef menuRef : option Element) (target : Node)
      (s : State) :
  effects (handleClickOutside messageRef menuRef target s) = [].
Proof.
  unfold handleClickOutside. unfold_monad.
  destruct (showMenu s || showDeleteOptions s); [|reflexivity].
  now destruct (_ && _).
Qed.

(** What one event adds to the log. *)
Lemma log_step (p : Props) (w : World) (ev : Event) :
  exists effs : list Effect,
    log (step p w ev) = log w ++ effs
    /\ match ev with
       | ClickDelete b =>
           effs = match onDelete p with
                  | Some _ => [CallOnDelete (id p) b]
                  | None => []
                  end
       | ClickToggleAudio =>
           effs = effects (toggleAudio (audioRef_current p (ui w)) (ui w))
       | _ => quiet effs
       end.
Proof.
  destruct ev; cbn [step].
  - eexists; split; [reflexivity|]. rewrite handleMessageClick_effects. now split.
  - eexists; split; [reflexivity|].
    unfold handleCopy, clipboardWriteText. now destruct (clipboard nav).
  - exists (effects (handleShare p (unsettledNav nav) (ui w))).
    split; [|apply handleShare_begin_quiet].
    now destruct (isSuspended _), (sharePromise p nav).
  - destruct (nth_error (awaitingShare w) i) as [[via r]|].
    + destruct r as [|e|].
      * eexists; split; [reflexivity|]. apply handleShare_resume_quiet.
      * eexists; split; [reflexivity|]. apply handleShare_resume_quiet.
      * exists []. rewrite app_nil_r. now split.
    + exists []. rewrite app_nil_r. now split.
  - eexists; split; [reflexivity|]. now split.
  - rewrite handleDelete_begin.
    destruct (onDelete p); eexists; split; reflexivity.
  - destruct (nth_error (awaitingDelete w) i) as [r|].
    + destruct r as [|e|].
      * eexists; split; [reflexivity|]. apply handleDelete_resume_quiet.
      * eexists; split; [reflexivity|]. apply handleDelete_resume_quiet.
      * exists []. rewrite app_nil_r. now split.
    + exists []. rewrite app_nil_r. now split.
  - destruct (clickListenerRegistered (ui w)).
    + eexists; split; [reflexivity|]. rewrite handleClickOutside_effects. now split.
    + exists []. rewrite app_nil_r. now split.
  - eexists; split; [reflexivity|]. now split.
  - eexists; split; reflexivity.
  - eexists; split; [reflexivity|]. now split.
  - eexists; split; [reflexivity|]. now split.
Qed.

Lemma step_calls (p : Props) (w : World) (ev : Event) :
  filter isCallOnDelete (log (step p w ev)) =
  filter isCallOnDelete (log w)
  ++ match ev, onDelete p with
     | ClickDelete b, Some _ => [CallOnDelete (id p) b]
     | _, _ => []
     end.
Proof.
  destruct (log_step p w ev) as [effs [Hlog Heffs]].
  rewrite Hlog, filter_app. f_equal.
  destruct ev;
    try (match type of Heffs with
         | quiet _ => destruct Heffs as [Hq _]; rewrite Hq; now destruct (onDelete p)
         end).
  - subst effs. now destruct (onDelete p).
  - subst effs. unfold toggleAudio. unfold_monad.
    destruct (audioRef_current p (ui w)); [|now destruct (onDelete p)].
    destruct (isPlaying (ui w)); now destruct (onDelete p).
Qed.


Lemma requestAllowed_calls (p : Props) (l : list Effect) :
  forallb (requestAllowed p) l = forallb (requestAllowed p) (filter isCallOnDelete l).
Proof.
  induction l as [|e l IH]; [reflexivity|].
  destruct e; simpl; rewrite <- IH; reflexivity.
Qed.

Lemma hasButton_delete_for_everyone (p : Props) (s : State) :
  hasButton (OnDelete true) (deleteOptions (render p s)) = true ->
  privileged p = true.
Proof.
  rewrite render_deleteOptions. unfold renderDeleteOptions.
  destruct (showDeleteOptions s); [|discriminate].
  rewrite canDeleteForEveryone_privileged.
  now destruct (privileged p).
Qed.

Lemma exec_requestAllowed (p : Props) (evs : list Event) :
  forall w w' : World,
    forallb (requestAllowed p) (log w) = true ->
    exec p w evs = Some w' ->
    forallb (requestAllowed p) (log w') = true.
Proof.
  induction evs as [|ev evs IH]; intros w w' Hlog Hexec; simpl in Hexec.
  - now injection Hexec as <-.
  - destruct (enabled p w ev) eqn:Hen; [|discriminate Hexec].
    apply (IH (step p w ev)); [|exact Hexec].
    rewrite requestAllowed_calls, step_calls, forallb_app, <- requestAllowed_calls, Hlog.
    destruct ev; try (now destruct (onDelete p)).
    destruct (onDelete p) as [cb|]; [|reflexivity].
    cbn [enabled] in Hen. rewrite clickable_delete in Hen.
    apply andb_true_iff in Hen as [_ Hbtn].
    cbn. rewrite String.eqb_refl.
    destruct deleteForEveryone; [|reflexivity].
    now rewrite (hasButton_delete_for_everyone p (ui w) Hbtn).
Qed.

(** X12. Whatever the page does, every call of [onDelete] is for this
    message, and deletion for everyone is requested only when the viewer is
    the sender, a group admin or the group creator. *)
Theorem delete_for_everyone_needs_privilege :
  forall (p : Props) (evs : list Event) (w : World),
    exec p initialWorld evs = Some w ->
    forallb (requestAllowed p) (log w) = true.
Proof.
  intros p evs w Hexec.
  now apply (exec_requestAllowed p evs initialWorld w).
Qed.

Lemma delete_for_everyone_needs_privilege_witness :
  forallb (requestAllowed (sampleProps (Some (fun _ _ => Resolves))))
          (log (run (sampleProps (Some (fun _ _ => Resolves))) initialWorld
                    [ClickMessage sampleDom; ClickElimina; ClickDelete false;
                     DeleteSettled 0])) = true.
Proof.
  exact (delete_for_everyone_needs_privilege
           (sampleProps (Some (fun _ _ => Resolves)))
           [ClickMessage sampleDom; ClickElimina; ClickDelete false; DeleteSettled 0]
           _ eq_refl).
Defined.

Example unprivileged_cannot_click_delete_for_everyone :
  exec (sampleProps (Some (fun _ _ => Resolves))) initialWorld
       [ClickMessage sampleDom; ClickElimina; ClickDelete true] = None.
Proof. vm_compute. reflexivity. Qed.

(** *** Opening and closing the delete-options menu *)

Lemma step_showDeleteOptions (p : Props) (w : World) (ev : Event) :
  showDeleteOptions (ui (step p w ev)) =
  match ev with
  | ClickElimina => true
  | DeleteSettled i =>
      match nth_error (awaitingDelete w) i with
      | Some Resolves => false
      | _ => showDeleteOptions (ui w)
      end
  | DocumentClick dom target =>
      showDeleteOptions (ui w)
      && negb (Js.truthyOptBool
                 (option_map (fun el => negb (contains el target)) (messageEl dom))
               && Js.truthyOptBool
                    (option_map (fun el => negb (contains el target))
                                (menuRef_current p (ui w) dom)))
  | _ => showDeleteOptions (ui w)
  end.
Proof.
  rewrite ui_step.
  destruct ev; try reflexivity.
  - rewrite handleMessageClick_state, calculateMenuPosition_state.
    destruct (showDeleteOptions (ui w)) eqn:Hopt; [exact Hopt|].
    destruct (messageEl dom); exact Hopt.
  - rewrite handleCopy_state. now destruct (clipboard nav).
  - now destruct (nth_error (awaitingShare w) i) as [[via [|e|]]|].
  - now destruct (onDelete p).
  - destruct (nth_error (awaitingDelete w) i) as [r|]; [|reflexivity].
    rewrite handleDelete_resume_state. now destruct r.
  - rewrite handleClickOutside_state.
    destruct (showMenu (ui w)) eqn:Hm, (showDeleteOptions (ui w)) eqn:Hopt; cbn;
      try exact Hopt;
      destruct (Js.truthyOptBool _ && Js.truthyOptBool _); cbn; auto.
  - rewrite toggleAudio_state. now destruct (audioRef_current p (ui w)).
Qed.

Lemma renderMenu_empty (p : Props) (s : State) :
  emptyMessage p = true -> menu (render p s) = None.
Proof.
  unfold emptyMessage. rewrite render_menu. unfold renderMenu.
  intros H. apply andb_true_iff in H as [Ht Hm].
  apply negb_true_iff in Ht, Hm. rewrite Ht, Hm.
  now rewrite andb_false_r.
Qed.

Lemma exec_empty_message (p : Props) (evs : list Event) :
  emptyMessage p = true ->
  forall w w' : World,
    showDeleteOptions (ui w) = false ->
    exec p w evs = Some w' ->
    showDeleteOptions (ui w') = false
    /\ filter isCallOnDelete (log w') = filter isCallOnDelete (log w).
Proof.
  intros Hempty.
  induction evs as [|ev evs IH]; intros w w' Hclosed Hexec; simpl in Hexec.
  - injection Hexec as <-. now split.
  - destruct (enabled p w ev) eqn:Hen; [|discriminate Hexec].
    assert (Hstep : showDeleteOptions (ui (step p w ev)) = false
                    /\ filter isCallOnDelete (log (step p w ev))
                       = filter isCallOnDelete (log w)).
    { rewrite step_showDeleteOptions, step_calls.
      destruct ev; cbn [enabled] in Hen;
        try (split; [exact Hclosed | now rewrite app_nil_r]).
      - (* Elimina is in a menu that is not rendered *)
        rewrite (renderMenu_empty p (ui w) Hempty) in Hen. discriminate Hen.
      - (* the delete buttons are in a menu that is closed *)
        rewrite render_deleteOptions in Hen. unfold renderDeleteOptions in Hen.
        rewrite Hclosed in Hen. discriminate Hen.
      - split; [|now rewrite app_nil_r].
        now destruct (nth_error (awaitingDelete w) i) as [[|e|]|].
      - split; [|now rewrite app_nil_r].
        now rewrite Hclosed. }
    destruct Hstep as [Hclosed' Hcalls'].
    destruct (IH (step p w ev) w' Hclosed' Hexec) as [Hc Hl].
    split; [exact Hc|congruence].
Qed.

(** X13. A message with neither text nor media never shows the popup menu,
    so the page offers no way to its delete-options menu: whatever happens,
    that menu stays closed and [onDelete] is never called. *)
Theorem empty_message_cannot_be_deleted :
  forall (p : Props) (evs : list Event) (w : World),
    emptyMessage p = true ->
    exec p initialWorld evs = Some w ->
    menu (render p (ui w)) = None
    /\ deleteOptions (render p (ui w)) = None
    /\ filter isCallOnDelete (log w) = [].
Proof.
  intros p evs w Hempty Hexec.
  destruct (exec_empty_message p evs Hempty initialWorld w eq_refl Hexec) as [Hc Hl].
  split; [now apply renderMenu_empty|].
  split; [|exact Hl].
  rewrite render_deleteOptions. unfold renderDeleteOptions. now rewrite Hc.
Qed.

Lemma empty_message_cannot_be_deleted_witness :
  filter isCallOnDelete
    (log (run sampleEmptyProps initialWorld
              [ClickMessage sampleDom; DocumentClick sampleDom 99; ClickMessage sampleDom]))
  = [].
Proof.
  exact (proj2 (proj2 (empty_message_cannot_be_deleted sampleEmptyProps
           [ClickMessage sampleDom; DocumentClick sampleDom 99; ClickMessage sampleDom]
           _ eq_refl eq_refl))).
Defined.

Lemma forallb_removeNth {A} (f : A -> bool) (i : nat) (l : list A) :
  forallb f l = true -> forallb f (removeNth i l) = true.
Proof.
  revert i. induction l as [|x l IH]; intros i H; [now destruct i|].
  simpl in H. apply andb_true_iff in H as [Hx Hl].
  destruct i; simpl; [exact Hl|].
  now rewrite Hx, IH.
Qed.

Lemma forallb_nth_error {A} (f : A -> bool) (l : list A) (i : nat) (x : A) :
  forallb f l = true -> nth_error l i = Some x -> f x = true.
Proof.
  revert i. induction l as [|y l IH]; intros i H Hn.
  - destruct i; discriminate Hn.
  - simpl in H. apply andb_true_iff in H as [Hy Hl].
    destruct i; simpl in Hn; [now injection Hn as <-|].
    now apply (IH i).
Qed.

Lemma step_delete_options_stay_open (p : Props) (w : World) (ev : Event) :
  noDeletionSucceeds p w ->
  showDeleteOptions (ui w) = true ->
  noDeletionSucceeds p (step p w ev)
  /\ showDeleteOptions (ui (step p w ev)) = true.
Proof.
  intros [Hawait Hcb] Hopen. split.
  - split; [|exact Hcb].
    rewrite step_awaitingDelete.
    destruct ev; try exact Hawait.
    + specialize (Hcb deleteForEveryone).
      destruct (onDelete p) as [cb|]; [|exact Hawait].
      rewrite forallb_app, Hawait. cbn. now rewrite Hcb.
    + destruct (nth_error (awaitingDelete w) i) as [[|e|]|];
        try exact Hawait; now apply forallb_removeNth.
  - rewrite step_showDeleteOptions.
    destruct ev; try exact Hopen; try reflexivity.
    + destruct (nth_error (awaitingDelete w) i) as [r|] eqn:Hn; [|exact Hopen].
      pose proof (forallb_nth_error _ _ _ _ Hawait Hn) as Hr.
      destruct r; [discriminate Hr|exact Hopen|exact Hopen].
    + (* the popup menu is not rendered, so [menuRef] is null *)
      rewrite Hopen. unfold menuRef_current. rewrite render_menu. unfold renderMenu.
      rewrite Hopen, andb_false_r. cbn. now rewrite andb_false_r.
Qed.

(** X14. Once the delete-options menu is open, only a fulfilled deletion
    closes it: as long as no call of [onDelete] is fulfilled (there is no
    callback, or its promises are rejected or stay pending), no sequence of
    clicks on the bubble, on the buttons or anywhere on the document, and no
    other event, sets [showDeleteOptions] back to false. *)
Theorem delete_options_close_only_on_success :
  forall (p : Props) (w : World) (evs : list Event),
    noDeletionSucceeds p w ->
    showDeleteOptions (ui w) = true ->
    showDeleteOptions (ui (run p w evs)) = true.
Proof.
  intros p w evs. revert w. unfold run.
  induction evs as [|ev evs IH]; intros w Hno Hopen; [exact Hopen|].
  simpl.
  destruct (step_delete_options_stay_open p w ev Hno Hopen) as [Hno' Hopen'].
  now apply IH.
Qed.

Lemma delete_options_close_only_on_success_witness :
  showDeleteOptions
    (ui (run (sampleProps (Some (fun _ _ => Rejects (Js.Str "offline"))))
             {| ui := deleteOptionsOpen; awaitingDelete := []; awaitingShare := [];
                log := [] |}
             [DocumentClick sampleDom 99; ClickMessage sampleDom; ClickDelete false;
              DeleteSettled 0; DocumentClick sampleDom 3])) = true.
Proof.
  exact (delete_options_close_only_on_success
           (sampleProps (Some (fun _ _ => Rejects (Js.Str "offline"))))
           {| ui := deleteOptionsOpen; awaitingDelete := []; awaitingShare := [];
              log := [] |}
           [DocumentClick sampleDom 99; ClickMessage sampleDom; ClickDelete false;
            DeleteSettled 0; DocumentClick sampleDom 3]
           (conj eq_refl (fun _ => eq_refl)) eq_refl).
Defined.

(** *** Playing *)

Lemma mediaKindIs_audio_state (p : Props) (s s' : State) :
  mediaKindIs audio (render p s) = mediaKindIs audio (render p s').
Proof.
  unfold mediaKindIs. rewrite !render_media. unfold renderMedia.
  destruct (negb (Js.truthyOptStr (mediaUrl p))); [reflexivity|].
  now destruct (mediaType p) as [[| | |]|].
Qed.

Lemma audioRef_current_kind (p : Props) (s : State) :
  audioRef_current p s = if mediaKindIs audio (render p s) then Some tt else None.
Proof.
  unfold audioRef_current, mediaKindIs.
  destruct (media (render p s)) as [v|]; [|reflexivity].
  now destruct (kind v).
Qed.

Lemma toggleAudio_lastAudioCommand (audioRef : option unit) (s : State) :
  lastAudioCommand (effects (toggleAudio audioRef s)) =
  match audioRef with
  | Some _ => Some (if isPlaying s then AudioPause else AudioPlay)
  | None => None
  end.
Proof.
  unfold toggleAudio. unfold_monad.
  destruct audioRef; [|reflexivity].
  now destruct (isPlaying s).
Qed.

Lemma step_isPlaying (p : Props) (w : World) (ev : Event) :
  isPlaying (ui (step p w ev)) =
  match ev with
  | ClickToggleAudio =>
      if mediaKindIs audio (render p (ui w)) then negb (isPlaying (ui w))
      else isPlaying (ui w)
  | AudioEnded => false
  | _ => isPlaying (ui w)
  end.
Proof.
  rewrite ui_step.
  destruct ev; try reflexivity.
  - rewrite handleMessageClick_state, calculateMenuPosition_state.
    destruct (showDeleteOptions (ui w)); [reflexivity|].
    now destruct (messageEl dom).
  - rewrite handleCopy_state. now destruct (clipboard nav).
  - now destruct (nth_error (awaitingShare w) i) as [[via [|e|]]|].
  - now destruct (onDelete p).
  - destruct (nth_error (awaitingDelete w) i) as [r|]; [|reflexivity].
    rewrite handleDelete_resume_state. now destruct r.
  - rewrite handleClickOutside_state. now destruct (_ && _ && _).
  - rewrite toggleAudio_state, audioRef_current_kind.
    now destruct (mediaKindIs audio (render p (ui w))).
Qed.

Lemma step_lastAudioCommand (p : Props) (w : World) (ev : Event) :
  lastAudioCommand (log (step p w ev)) =
  match ev with
  | ClickToggleAudio =>
      if mediaKindIs audio (render p (ui w))
      then Some (if isPlaying (ui w) then AudioPause else AudioPlay)
      else lastAudioCommand (log w)
  | _ => lastAudioCommand (log w)
  end.
Proof.
  destruct (log_step p w ev) as [effs [Hlog Heffs]].
  rewrite Hlog, lastAudioCommand_app.
  destruct ev;
    try (match type of Heffs with
         | quiet _ => destruct Heffs as [_ Hq]; now rewrite Hq
         end).
  - subst effs. now destruct (onDelete p).
  - subst effs. rewrite toggleAudio_lastAudioCommand, audioRef_current_kind.
    now destruct (mediaKindIs audio (render p (ui w))).
Qed.

(** X15. The component believes the audio is playing only after it has told
    the element to play: over any sequence of events from the start, whenever
    [isPlaying] is true the last command sent to the [audio] element was
    [play], and a message whose media is not an audio never sends a command
    and never has [isPlaying] true. *)
Theorem isPlaying_follows_play :
  forall (p : Props) (evs : list Event),
    let w := run p initialWorld evs in
    (if isPlaying (ui w) then lastAudioCommand (log w) = Some AudioPlay else True)
    /\ (if mediaKindIs audio (render p initialState) then True
        else isPlaying (ui w) = false /\ lastAudioCommand (log w) = None).
Proof.
  intros p evs.
  assert (H : forall w0,
             (if isPlaying (ui w0) then lastAudioCommand (log w0) = Some AudioPlay else True)
             /\ (if mediaKindIs audio (render p initialState) then True
                 else isPlaying (ui w0) = false /\ lastAudioCommand (log w0) = None) ->
             (if isPlaying (ui (run p w0 evs))
              then lastAudioCommand (log (run p w0 evs)) = Some AudioPlay else True)
             /\ (if mediaKindIs audio (render p initialState) then True
                 else isPlaying (ui (run p w0 evs)) = false
                      /\ lastAudioCommand (log (run p w0 evs)) = None)).
  { unfold run. induction evs as [|ev evs IH]; intros w0 H0; [exact H0|].
    simpl. apply IH. clear IH.
    rewrite step_isPlaying, step_lastAudioCommand.
    rewrite (mediaKindIs_audio_state p (ui w0) initialState).
    destruct H0 as [Hplay Hkind].
    destruct ev; try (split; assumption).
    - destruct (mediaKindIs audio (render p initialState)).
      + split; [|exact I]. now destruct (isPlaying (ui w0)).
      + split; assumption.
    - split; [exact I|].
      destruct (mediaKindIs audio (render p initialState)); [exact I|].
      now destruct Hkind. }
  cbv zeta. apply H. cbn. split; [exact I|].
  now destruct (mediaKindIs audio (render p initialState)).
Qed.

Example isPlaying_after_the_audio_ended :
  let w := run sampleAudioProps initialWorld
               [ClickToggleAudio; AudioEnded; ClickToggleAudio; ClickToggleAudio] in
  isPlaying (ui w) = false
  /\ log w = [StopPropagation; AudioPlay; StopPropagation; AudioPlay;
              StopPropagation; AudioPause].
Proof. cbv zeta. split; vm_compute; reflexivity. Qed.

(** *** Without a callback *)

(** X16. Without an [onDelete] callback the delete buttons are dead: over
    any sequence of events from the start nothing is called or awaited and
    [isDeleting] stays false, so the buttons are never disabled either. *)
Theorem without_callback_nothing_is_deleted :
  forall (p : Props) (evs : list Event),
    onDelete p = None ->
    let w := run p initialWorld evs in
    filter isCallOnDelete (log w) = []
    /\ awaitingDelete w = []
    /\ isDeleting (ui w) = false
    /\ forall bs : list Button,
         deleteOptions (render p (ui w)) = Some bs ->
         Forall (fun b => disabled b = false) bs.
Proof.
  intros p evs Hnone w.
  assert (H : forall w0,
             filter isCallOnDelete (log w0) = [] ->
             awaitingDelete w0 = [] -> isDeleting (ui w0) = false ->
             filter isCallOnDelete (log (run p w0 evs)) = []
             /\ awaitingDelete (run p w0 evs) = []
             /\ isDeleting (ui (run p w0 evs)) = false).
  { unfold run. induction evs as [|ev evs IH]; intros w0 Hl Ha Hd; [now split|].
    simpl. apply IH.
    - rewrite step_calls, Hnone, Hl. now destruct ev.
    - rewrite step_awaitingDelete, Hnone, Ha.
      destruct ev; try reflexivity. now destruct i.
    - rewrite step_isDeleting, Hnone, Ha.
      destruct ev; try exact Hd. now destruct i. }
  destruct (H initialWorld eq_refl eq_refl eq_refl) as [Hl [Ha Hd]].
  fold w in Hl, Ha, Hd.
  split; [exact Hl|]. split; [exact Ha|]. split; [exact Hd|].
  intros bs Hbs.
  pose proof (renderDeleteOptions_disabled p (ui w)) as Hdis.
  unfold disabledFollowsIsDeleting in Hdis. rewrite Hbs, Hd in Hdis. exact Hdis.
Qed.

Lemma without_callback_nothing_is_deleted_witness :
  isDeleting
    (ui (run (sampleProps None) initialWorld
             [ClickMessage sampleDom; ClickElimina; ClickDelete false; ClickDelete false]))
  = false.
Proof.
  exact (proj1 (proj2 (proj2 (without_callback_nothing_is_deleted (sampleProps None)
           [ClickMessage sampleDom; ClickElimina; ClickDelete false; ClickDelete false]
           eq_refl)))).
Defined.

(** *** What the popup menu offers *)

(** X17. The popup menu always ends with [Elimina]; [Copia] and [Condividi]
    come with it exactly when the message has a text, so a message that is
    only media can be deleted but neither copied nor shared. None of its
    buttons is ever disabled. *)
Theorem popup_menu_offers :
  forall (p : Props) (s : State) (bs : list Button),
    menu (render p s) = Some bs ->
    hasButton OnElimina (Some bs) = true
    /\ hasButton OnCopy (Some bs) = Js.truthyStr (text p)
    /\ hasButton OnShare (Some bs) = Js.truthyStr (text p)
    /\ List.length bs = (if Js.truthyStr (text p) then 3 else 1)
    /\ forallb (fun b => negb (disabled b)) bs = true.
Proof.
  intros p s bs. rewrite render_menu. unfold renderMenu.
  destruct (showMenu s && negb (showDeleteOptions s)
            && (Js.truthyStr (text p) || Js.truthyOptStr (mediaUrl p)));
    [|discriminate].
  intros H. injection H as <-.
  destruct (Js.truthyStr (text p)); repeat split.
Qed.

Lemma popup_menu_offers_witness :
  hasButton OnCopy (menu (render sampleAudioProps (withShowMenu true initialState)))
  = false.
Proof.
  exact (proj1 (proj2 (popup_menu_offers sampleAudioProps (withShowMenu true initialState)
                         _ eq_refl))).
Defined.

(** *** Deleting, from the first click to the end *)

(** X18. For every message with a text or a medium, whatever the page looks
    like, the way to a deletion is open: a click on the bubble, on [Elimina]
    and on the button that deletes for the viewer are all possible in that
    order, [onDelete] is called once with the message's [id] and [false], and
    when its promise is fulfilled both menus are closed, nothing is awaited
    and [isDeleting] is false again. *)
Theorem deletion_from_click_to_end :
  forall (p : Props) (dom : Dom) (cb : string -> bool -> Settlement),
    emptyMessage p = false ->
    onDelete p = Some cb ->
    cb (id p) false = Resolves ->
    exists w : World,
      exec p initialWorld
           [ClickMessage dom; ClickElimina; ClickDelete false; DeleteSettled 0] = Some w
      /\ log w = [CallOnDelete (id p) false]
      /\ showMenu (ui w) = false
      /\ showDeleteOptions (ui w) = false
      /\ isDeleting (ui w) = false
      /\ awaitingDelete w = [].
Proof.
  intros p dom cb Hcontent Hcb Hres.
  unfold emptyMessage in Hcontent.
  rewrite <- negb_orb in Hcontent. apply negb_false_iff in Hcontent.
  exists (run p initialWorld
              [ClickMessage dom; ClickElimina; ClickDelete false; DeleteSettled 0]).
  cbn [exec enabled run fold_left].
  (* the bubble is clicked: the popup menu opens *)
  set (w1 := step p initialWorld (ClickMessage dom)).
  assert (H1 : showMenu (ui w1) = true /\ showDeleteOptions (ui w1) = false
               /\ isDeleting (ui w1) = false /\ awaitingDelete w1 = []
               /\ log w1 = []).
  { subst w1. cbn [step commit ui awaitingDelete log initialWorld].
    rewrite handleMessageClick_effects, handleMessageClick_state,
            calculateMenuPosition_state.
    cbn. destruct (messageEl dom); repeat split. }
  destruct H1 as [Hm1 [Ho1 [Hd1 [Ha1 Hl1]]]]. clearbody w1.
  assert (Hen1 : clickable OnElimina (menu (render p (ui w1))) = true).
  { rewrite render_menu. unfold renderMenu. rewrite Hm1, Ho1, Hcontent. cbn.
    now destruct (Js.truthyStr (text p)). }
  rewrite Hen1.
  (* Elimina is clicked: the delete-options menu replaces it *)
  set (w2 := step p w1 ClickElimina).
  assert (H2 : showDeleteOptions (ui w2) = true /\ isDeleting (ui w2) = false
               /\ awaitingDelete w2 = [] /\ log w2 = []).
  { subst w2. cbn [step commit ui awaitingDelete log].
    cbn. rewrite Hd1, Ha1, Hl1. repeat split. }
  destruct H2 as [Ho2 [Hd2 [Ha2 Hl2]]]. clearbody w2.
  assert (Hen2 : clickable (OnDelete false) (deleteOptions (render p (ui w2))) = true).
  { rewrite clickable_delete, Hd2, render_deleteOptions. unfold renderDeleteOptions.
    now rewrite Ho2. }
  rewrite Hen2.
  (* the delete button is clicked: [onDelete] is called and awaited *)
  set (w3 := step p w2 (ClickDelete false)).
  assert (H3 : awaitingDelete w3 = [Resolves] /\ log w3 = [CallOnDelete (id p) false]).
  { subst w3. cbn [step]. rewrite handleDelete_begin, Hcb.
    cbn. now rewrite Ha2, Hl2, Hres. }
  destruct H3 as [Ha3 Hl3]. clearbody w3.
  rewrite Ha3. cbn [nth_error isSettled].
  split; [reflexivity|].
  cbn [step]. rewrite Ha3. cbn [nth_error].
  cbn [setAwaitingDelete commit log ui awaitingDelete removeNth].
  rewrite handleDelete_resume_state, Hl3.
  repeat split.
Qed.

Lemma deletion_from_click_to_end_witness :
  exists w : World,
    exec (sampleProps (Some (fun _ _ => Resolves))) initialWorld
         [ClickMessage sampleDom; ClickElimina; ClickDelete false; DeleteSettled 0] = Some w
    /\ log w = [CallOnDelete "m1" false]
    /\ showMenu (ui w) = false
    /\ showDeleteOptions (ui w) = false
    /\ isDeleting (ui w) = false
    /\ awaitingDelete w = [].
Proof.
  exact (deletion_from_click_to_end (sampleProps (Some (fun _ _ => Resolves))) sampleDom
           (fun _ _ => Resolves) eq_refl eq_refl eq_refl).
Defined.

End MessageItemSpec.
